(** * AuthenticatorTray: the account parsers and the output writer of setup.py

    A shallow embedding of [parse_otpauth_url], [parse_migration_url] and
    [create_accounts_json] (src/setup.py), with the properties the
    specification states about them.

    Conventions.
    - A Python [str] is the [string] of its UTF-8 bytes; a [bytes] value is
      a [list byte].  A lone surrogate, for which UTF-8 has no form, is the
      three bytes that the scheme of UTF-8 gives its code point (what
      [errors="surrogatepass"] writes).
    - A call that may raise is a computation in [result]; [try_except] is the
      [try: ... except Exception: ...] block.
    - Console output ([print]) is left out, as on a console that prints
      every text, except in the module [Console]: there the handlers of the
      two parsers print the exception, and the print may raise.
    - The calls into the Python standard library and into the generated
      protobuf module are the methods of the class [PyLib].  The general
      theorems hold for every instance; [CPython.lib] is a reference
      instance, on which the functions can be run. *)

From Stdlib Require Import ZArith String Ascii List DecimalString.
From Stdlib.Strings Require Import Byte.
From stdpp Require Import base option gmap strings list.

Local Open Scope Z_scope.

(** ** Exceptions and the [result] monad *)

Inductive exn : Set :=
| ValueError
| IndexError
| ImportError
| DecodeError
| binascii_Error
| FileExistsError
| FileNotFoundError
| NotADirectoryError
| IsADirectoryError.

Inductive result (A : Type) : Type :=
| Return (a : A)
| Raise (e : exn).
Arguments Return {A} a.
Arguments Raise {A} e.

#[global] Instance result_ret : MRet result := @Return.

#[global] Instance result_bind : MBind result :=
  fun A B f m => match m with Return a => f a | Raise e => Raise e end.

(** [try: body / except Exception as e: handler e].  Every member of [exn]
    is a subclass of [Exception]. *)
Definition try_except {A} (body : result A) (handler : exn → result A) : result A :=
  match body with
  | Return a => Return a
  | Raise e => handler e
  end.

(** ** Built-in operations on [str] and [list] *)

(** [bool(s)] for a [str]. *)
Definition truthy (s : string) : bool :=
  match s with
  | EmptyString => false
  | String _ _ => true
  end.

(** [c in s] for a one-character [c]. *)
Fixpoint str_in (c : ascii) (s : string) : bool :=
  match s with
  | EmptyString => false
  | String a r => if Ascii.eqb a c then true else str_in c r
  end.

(** The text before the first [c] of [s] and the text after it, when [c]
    occurs in [s]. *)
Fixpoint cut (c : ascii) (s : string) : option (string * string) :=
  match s with
  | EmptyString => None
  | String a r =>
      if Ascii.eqb a c then Some (EmptyString, r)
      else match cut c r with
           | Some (h, t) => Some (String a h, t)
           | None => None
           end
  end.

(** [s.split(c, 1)]. *)
Definition split1 (c : ascii) (s : string) : list string :=
  match cut c s with
  | Some (h, t) => [h; t]
  | None => [s]
  end.

(** [s.lstrip(c)] for a one-character [c]. *)
Fixpoint lstrip (c : ascii) (s : string) : string :=
  match s with
  | EmptyString => EmptyString
  | String a r => if Ascii.eqb a c then lstrip c r else s
  end.

(** [l[i]]: raises [IndexError] out of range. *)
Definition getitem {A} (l : list A) (i : nat) : result A :=
  match l !! i with
  | Some a => Return a
  | None => Raise IndexError
  end.

(** [x in l] for a list of [str], and for a list of [int]. *)
Definition str_in_list (x : string) (l : list string) : bool :=
  existsb (String.eqb x) l.

Definition int_in_list (x : Z) (l : list Z) : bool :=
  existsb (Z.eqb x) l.

(** ** Data *)

(** The dictionary both parsers build: keys "name", "secret", "digits" and
    "algorithm". *)
Record Account : Set := {
  name : string;
  secret : string;
  digits : Z;
  algorithm : string
}.

(** The six-field result of [urllib.parse.urlparse]. *)
Record ParseResult : Set := {
  scheme : string;
  netloc : string;
  path : string;
  params : string;
  query : string;
  fragment : string
}.

(** Modelled from the spec: the message types of auth_migration.proto, from
    which the module auth_migration_pb2 is generated; neither file is under
    src/.  The fields are those of RawOtpRecord (section 3): a field absent
    from the payload has its default value (empty bytes, empty text, 0). *)
Module OtpParameters.
Record t : Set := {
  secret : list byte;
  name : string;
  issuer : string;
  algorithm : Z;
  digits : Z;
  type : Z;
  counter : Z
}.
End OtpParameters.

(** Modelled from the spec: the top-level message of the same file, with
    its repeated entries and the batch fields that section 4.2 calls
    metadata. *)
Record MigrationPayload : Set := {
  otp_parameters : list OtpParameters.t;
  version : Z;
  batch_size : Z;
  batch_index : Z;
  batch_id : Z
}.

(** ** The library calls *)

Class PyLib := {
  (** [urllib.parse.urlparse(url)] *)
  urlparse : string → result ParseResult;
  (** [urllib.parse.unquote(s)] *)
  unquote : string → string;
  (** [urllib.parse.parse_qs(qs)] *)
  parse_qs : string → result (gmap string (list string));
  (** [s.upper()] *)
  upper : string → string;
  (** [int(s)] *)
  int : string → result Z;
  (** [base64.urlsafe_b64decode(s)] *)
  urlsafe_b64decode : string → result (list byte);
  (** [import auth_migration_pb2], [MigrationPayload()] and
      [ParseFromString(payload)] *)
  ParseFromString : list byte → result MigrationPayload;
  (** [json.dumps(obj, indent=2)] of the object [{"accounts": [...]}] *)
  json_dumps : list Account → string
}.

(** ** [base64.b32encode] (RFC 4648, with padding) *)

Definition b32alphabet : list ascii :=
  list_ascii_of_string "ABCDEFGHIJKLMNOPQRSTUVWXYZ234567".

Definition b32char (n : Z) : ascii :=
  nth (Z.to_nat (Z.land n 31)) b32alphabet "="%char.

Definition byteZ (b : byte) : Z := Z.of_N (Byte.to_N b).

(** The eight characters of one 40-bit group. *)
Definition b32group (a b c d e : byte) : list ascii :=
  let n := Z.lor (Z.shiftl (byteZ a) 32)
          (Z.lor (Z.shiftl (byteZ b) 24)
          (Z.lor (Z.shiftl (byteZ c) 16)
          (Z.lor (Z.shiftl (byteZ d) 8) (byteZ e)))) in
  map (fun k => b32char (Z.shiftr n k)) [35; 30; 25; 20; 15; 10; 5; 0].

Definition chars (n : nat) (g : list ascii) (pad : string) : string :=
  string_of_list_ascii (firstn n g) +:+ pad.

Fixpoint b32encode (s : list byte) : string :=
  match s with
  | [] => ""
  | [a] => chars 2 (b32group a x00 x00 x00 x00) "======"
  | [a; b] => chars 4 (b32group a b x00 x00 x00) "===="
  | [a; b; c] => chars 5 (b32group a b c x00 x00) "==="
  | [a; b; c; d] => chars 7 (b32group a b c d x00) "="
  | a :: b :: c :: d :: e :: rest =>
      string_of_list_ascii (b32group a b c d e) +:+ b32encode rest
  end.

(** ** Steps of parse_otpauth_url *)

(** [params.get(key, [None])[0]] *)
Definition get_first (params : gmap string (list string)) (key : string)
  : result (option string) :=
  getitem (match params !! key with
           | Some values => map Some values
           | None => [None]
           end) 0.

(** [params.get(key, [dflt])[0]] *)
Definition get_first_or (params : gmap string (list string))
    (key dflt : string) : result string :=
  getitem (default [dflt] (params !! key)) 0.

(** Lines 123-134: the issuer and the account name, from the issuer
    parameter and the label. *)
Definition split_label (issuer : option string) (label : string)
  : result (string * string) :=
  if str_in ":" label then
    let parts := split1 ":" label in
    match issuer with
    | Some (String _ _ as issuer) =>
        account_name ← (if (1 <? length parts)%nat then getitem parts 1
                        else getitem parts 0);
        mret (issuer, account_name)
    | _ =>
        issuer ← getitem parts 0;
        account_name ← (if (1 <? length parts)%nat then getitem parts 1
                        else mret "");
        mret (issuer, account_name)
    end
  else
    let account_name := label in
    match issuer with
    | Some (String _ _ as issuer) => mret (issuer, account_name)
    | _ => mret ("", account_name)
    end.

(** Lines 136-144. *)
Definition otpauth_display_name (issuer account_name : string) : string :=
  if truthy issuer && truthy account_name then
    issuer +:+ " (" +:+ account_name +:+ ")"
  else if truthy issuer then issuer
  else if truthy account_name then account_name
  else "Unknown".

(** Lines 146-149, after [.upper()]. *)
Definition otpauth_algorithm (algorithm : string) : string :=
  if negb (str_in_list algorithm ["SHA1"; "SHA256"; "SHA512"; "MD5"])
  then "SHA1" else algorithm.

(** Lines 153-154. *)
Definition otpauth_digits (digits : Z) : Z :=
  if negb (int_in_list digits [6; 7; 8]) then 6 else digits.

(** ** Steps of parse_migration_url *)

(** Lines 198-205. *)
Definition migration_display_name (issuer name : string) : string :=
  if truthy issuer && truthy name then
    issuer +:+ " (" +:+ name +:+ ")"
  else if truthy issuer then issuer
  else if truthy name then name
  else "Unknown".

(** [algorithm_map.get(code, "SHA1")] *)
Definition algorithm_map : gmap Z string :=
  <[1 := "SHA1"]> (<[2 := "SHA256"]> (<[3 := "SHA512"]> (<[4 := "MD5"]> ∅))).

(** Line 214. *)
Definition migration_algorithm (code : Z) : string :=
  default "SHA1" (algorithm_map !! code).

(** Line 217. *)
Definition migration_digits (code : Z) : Z :=
  if int_in_list code [6; 7; 8] then code else 6.

(** The body of the loop over [migration.otp_parameters] (lines 191-224),
    up to the [append]. *)
Definition otp_account (otp : OtpParameters.t) : Account :=
  let secret_b32 := b32encode (OtpParameters.secret otp) in
  let issuer := if truthy (OtpParameters.issuer otp)
                then OtpParameters.issuer otp else "" in
  let name_ := if truthy (OtpParameters.name otp)
               then OtpParameters.name otp else "" in
  let display_name := migration_display_name issuer name_ in
  let algorithm := migration_algorithm (OtpParameters.algorithm otp) in
  let digits := migration_digits (OtpParameters.digits otp) in
  {| name := display_name;
     secret := secret_b32;
     digits := digits;
     algorithm := algorithm |}.

(** [for otp in otps: accounts.append(...)] *)
Fixpoint otp_loop (otps : list OtpParameters.t) (accounts : list Account)
  : list Account :=
  match otps with
  | [] => accounts
  | otp :: rest => otp_loop rest (accounts ++ [otp_account otp])
  end.

(** ** The parsers *)

Section Parsers.
Context {L : PyLib}.

(** The [try] block of [parse_otpauth_url] (lines 107-161). *)
Definition parse_otpauth_url_try (url : string) : result (option Account) :=
  parsed ← urlparse url;
  if negb (scheme parsed =? "otpauth")%string then mret None else
  let label := unquote (lstrip "/" (path parsed)) in
  params ← parse_qs (query parsed);
  secret ← get_first params "secret";
  match secret with
  | None | Some EmptyString => mret None
  | Some secret =>
      issuer ← get_first params "issuer";
      '(issuer, account_name) ← split_label issuer label;
      let display_name := otpauth_display_name issuer account_name in
      algorithm ← get_first_or params "algorithm" "SHA1";
      let algorithm := otpauth_algorithm (upper algorithm) in
      digits ← get_first_or params "digits" "6";
      digits ← int digits;
      let digits := otpauth_digits digits in
      mret (Some {| name := display_name;
                    secret := secret;
                    digits := digits;
                    algorithm := algorithm |})
  end.

(** [parse_otpauth_url] on a console that prints every text: the handler
    (lines 162-164) prints the exception and returns None, and the print is
    taken to return.  [Console.parse_otpauth_url] has the print in it. *)
Definition parse_otpauth_url (url : string) : result (option Account) :=
  try_except (parse_otpauth_url_try url) (fun e => mret None).

(** The [try] block of [parse_migration_url] (lines 169-226). *)
Definition parse_migration_url_try (url : string)
  : result (option (list Account)) :=
  parsed ← urlparse url;
  if negb (scheme parsed =? "otpauth-migration")%string then mret None else
  params ← parse_qs (query parsed);
  match params !! "data" with
  | None | Some [] => mret None
  | Some (data :: _) =>
      payload ← urlsafe_b64decode data;
      migration ← ParseFromString payload;
      let accounts := [] in
      mret (Some (otp_loop (otp_parameters migration) accounts))
  end.

(** [parse_migration_url] on a console that prints every text (the handler
    is lines 227-229); [Console.parse_migration_url] has the print in it. *)
Definition parse_migration_url (url : string) : result (option (list Account)) :=
  try_except (parse_migration_url_try url) (fun e => mret None).

End Parsers.

(** * The file system and the output writer *)

(** A [pathlib.Path] is the list of its components, the last one first: the
    parent of [name :: p] is [p], and [[]] is the root.  A file system maps
    the paths that exist to a regular file with its contents or to a
    directory; links and permissions are not modelled. *)
Abbreviation Path := (list string) (only parsing).

Inductive node : Set :=
| File (contents : string)
| Dir.

Abbreviation FS := (gmap (list string) node) (only parsing).

(** [p / name] *)
Definition joinpath (p : Path) (name : string) : Path := name :: p.

Definition node_at (p : Path) (fs : FS) : option node :=
  match p with
  | [] => Some Dir
  | _ => fs !! p
  end.

(** [p.exists()] and [p.is_dir()] *)
Definition path_exists (p : Path) (fs : FS) : bool :=
  match node_at p fs with
  | Some _ => true
  | None => false
  end.

Definition is_dir (p : Path) (fs : FS) : bool :=
  match node_at p fs with
  | Some Dir => true
  | _ => false
  end.

(** [os.mkdir(p)] *)
Definition os_mkdir (p : Path) (fs : FS) : result unit * FS :=
  match p with
  | [] => (Raise FileExistsError, fs)
  | _ :: parent =>
      match node_at parent fs with
      | None => (Raise FileNotFoundError, fs)
      | Some (File _) => (Raise NotADirectoryError, fs)
      | Some Dir =>
          match fs !! p with
          | Some _ => (Raise FileExistsError, fs)
          | None => (Return tt, <[p := Dir]> fs)
          end
      end
  end.

(** [p.mkdir(parents=False, exist_ok=True)] *)
Definition mkdir_exist_ok (p : Path) (fs : FS) : result unit * FS :=
  match os_mkdir p fs with
  | (Return _, fs') => (Return tt, fs')
  | (Raise FileNotFoundError, _) => (Raise FileNotFoundError, fs)
  | (Raise e, _) => if is_dir p fs then (Return tt, fs) else (Raise e, fs)
  end.

(** [p.mkdir(parents=True, exist_ok=True)] *)
Fixpoint mkdir (p : Path) (fs : FS) : result unit * FS :=
  match os_mkdir p fs with
  | (Return _, fs') => (Return tt, fs')
  | (Raise FileNotFoundError, _) =>
      match p with
      | [] => (Raise FileNotFoundError, fs)
      | _ :: parent =>
          match mkdir parent fs with
          | (Return _, fs') => mkdir_exist_ok p fs'
          | (Raise e, fs') => (Raise e, fs')
          end
      end
  | (Raise e, _) => if is_dir p fs then (Return tt, fs) else (Raise e, fs)
  end.

(** [with open(p, "w") as f: f.write(contents)]: the file is created, or
    truncated and rewritten. *)
Definition open_w (p : Path) (contents : string) (fs : FS) : result unit * FS :=
  match p with
  | [] => (Raise IsADirectoryError, fs)
  | _ :: parent =>
      match node_at parent fs with
      | None => (Raise FileNotFoundError, fs)
      | Some (File _) => (Raise NotADirectoryError, fs)
      | Some Dir =>
          match fs !! p with
          | Some Dir => (Raise IsADirectoryError, fs)
          | _ => (Return tt, <[p := File contents]> fs)
          end
      end
  end.

(** In a well-formed file system the parent of every path that exists is a
    directory. *)
Definition fs_wf (fs : FS) : Prop :=
  map_Forall (fun (p : list string) (_ : node) => is_dir (tail p) fs = true) fs.

Section Writer.
Context {L : PyLib}.
Variable PROJECT_ROOT : Path.

Definition CSHARP_TRAY_DIR : Path :=
  joinpath (joinpath PROJECT_ROOT "csharp-tray") "AuthenticatorTray".

Definition CSHARP_ACCOUNTS_JSON : Path :=
  joinpath CSHARP_TRAY_DIR "accounts.json".

(** Lines 306-311: the file to write. *)
Definition csharp_file (fs : FS) : Path :=
  let csharp_file := CSHARP_ACCOUNTS_JSON in
  if path_exists CSHARP_ACCOUNTS_JSON fs
  then joinpath CSHARP_TRAY_DIR "updated_accounts.json"
  else csharp_file.

Definition create_accounts_json (accounts : list Account) (fs : FS)
  : result bool * FS :=
  match accounts with
  | [] => (Return false, fs)
  | _ =>
      let csharp_accounts :=
        map (fun acc => {| name := name acc;
                           secret := secret acc;
                           digits := digits acc;
                           algorithm := algorithm acc |}) accounts in
      let csharp_file := csharp_file fs in
      match mkdir CSHARP_TRAY_DIR fs with
      | (Raise e, fs) => (Raise e, fs)
      | (Return _, fs) =>
          match open_w csharp_file (json_dumps csharp_accounts) fs with
          | (Raise e, fs) => (Raise e, fs)
          | (Return _, fs) => (Return true, fs)
          end
      end
  end.

End Writer.

(** * A reference instance of the library calls

    The definitions of this module follow CPython 3.12 and protobuf's proto3
    wire format.  A [string] holds the UTF-8 bytes of the Python [str].  The
    instance is exact on ASCII text without brackets in the host part; the
    comments say where it departs from the library outside that range. *)

Module CPython.

Definition code (c : ascii) : Z := Z.of_N (N_of_ascii c).

Definition between (lo hi : Z) (c : ascii) : bool :=
  (lo <=? code c) && (code c <=? hi).

Definition is_digit (c : ascii) : bool := between 48 57 c.
Definition is_upper (c : ascii) : bool := between 65 90 c.
Definition is_lower (c : ascii) : bool := between 97 122 c.
Definition is_alpha (c : ascii) : bool := is_upper c || is_lower c.

Definition chr (n : Z) : ascii := ascii_of_N (Z.to_N n).

Definition to_lower (c : ascii) : ascii :=
  if is_upper c then chr (code c + 32) else c.

Definition to_upper (c : ascii) : ascii :=
  if is_lower c then chr (code c - 32) else c.

Fixpoint map_str (f : ascii → ascii) (s : string) : string :=
  match s with
  | EmptyString => EmptyString
  | String c r => String (f c) (map_str f r)
  end.

Fixpoint filter_str (f : ascii → bool) (s : string) : string :=
  match s with
  | EmptyString => EmptyString
  | String c r => if f c then String c (filter_str f r) else filter_str f r
  end.

Fixpoint forallb_str (f : ascii → bool) (s : string) : bool :=
  match s with
  | EmptyString => true
  | String c r => f c && forallb_str f r
  end.

(** [s.upper()] and [s.lower()]; characters outside ASCII are left as they
    are. *)
Definition str_upper (s : string) : string := map_str to_upper s.
Definition str_lower (s : string) : string := map_str to_lower s.

(** [s.lstrip(set)] *)
Fixpoint lstrip_set (f : ascii → bool) (s : string) : string :=
  match s with
  | EmptyString => EmptyString
  | String c r => if f c then lstrip_set f r else s
  end.

(** [s.split(c)]: every field between occurrences of [c]. *)
Fixpoint split (c : ascii) (s : string) : list string :=
  match s with
  | EmptyString => [EmptyString]
  | String a r =>
      if Ascii.eqb a c then EmptyString :: split c r
      else match split c r with
           | h :: t => String a h :: t
           | [] => [String a EmptyString]
           end
  end.

(** ** urllib.parse.urlparse *)

Definition scheme_char (c : ascii) : bool :=
  is_alpha c || is_digit c || Ascii.eqb c "+" || Ascii.eqb c "-" || Ascii.eqb c ".".

(** [_splitnetloc(url, 2)] applied to the text after the two slashes: the
    host part ends at the first of "/", "?" and "#". *)
Fixpoint splitnetloc (s : string) : string * string :=
  match s with
  | EmptyString => (EmptyString, EmptyString)
  | String c r =>
      if Ascii.eqb c "/" || Ascii.eqb c "?" || Ascii.eqb c "#" then (EmptyString, s)
      else let '(h, t) := splitnetloc r in (String c h, t)
  end.

(** The text up to and including the last "/", and the text after it. *)
Fixpoint rsplit_slash (s : string) : string * string :=
  match s with
  | EmptyString => (EmptyString, EmptyString)
  | String c r =>
      let '(h, t) := rsplit_slash r in
      if str_in "/" s then (String c h, t) else (EmptyString, s)
  end.

(** [_splitparams(url)], called when ";" occurs in [url]. *)
Definition splitparams (url : string) : string * string :=
  let '(h, t) := rsplit_slash url in
  match cut ";" t with
  | Some (a, b) => (h +:+ a, b)
  | None => (url, EmptyString)
  end.

Definition uses_params : list string :=
  [""; "ftp"; "hdl"; "prospero"; "http"; "imap"; "https"; "shttp"; "rtsp";
   "rtspu"; "sip"; "sips"; "mms"; "sftp"; "tel"].

(** The scheme, when the text before the first ":" is one. *)
Definition split_scheme (url : string) : string * string :=
  match cut ":" url with
  | Some (String c0 _ as s, rest) =>
      if is_alpha c0 && forallb_str scheme_char s
      then (str_lower s, rest) else (EmptyString, url)
  | _ => (EmptyString, url)
  end.

(** [urlsplit] followed by the parameter split of [urlparse].  A host part
    with a bracket raises [ValueError]: the library does so for unmatched
    brackets and for a bracketed host that is not an IPv6 or IPvFuture
    literal, and accepts the remaining ones.  The NFKC check of a non-ASCII
    host is left out. *)
Definition urlparse (url : string) : result ParseResult :=
  let url := lstrip_set (between 0 32) url in
  let url := filter_str (fun c => negb (Ascii.eqb c "009" || Ascii.eqb c "013"
                                        || Ascii.eqb c "010")) url in
  let '(scheme, url) := split_scheme url in
  netloc_url ←
    match url with
    | String "/" (String "/" rest) =>
        let '(netloc, url) := splitnetloc rest in
        if str_in "[" netloc || str_in "]" netloc then Raise ValueError
        else Return (netloc, url)
    | _ => Return (EmptyString, url)
    end;
  let '(netloc, url) := netloc_url in
  let '(url, fragment) :=
    match cut "#" url with
    | Some (u, f) => (u, f)
    | None => (url, EmptyString)
    end in
  let '(url, query) :=
    match cut "?" url with
    | Some (u, q) => (u, q)
    | None => (url, EmptyString)
    end in
  let '(url, params) :=
    if str_in_list scheme uses_params && str_in ";" url then splitparams url
    else (url, EmptyString) in
  Return {| scheme := scheme; netloc := netloc; path := url; params := params;
            query := query; fragment := fragment |}.

(** ** urllib.parse.unquote and parse_qs *)

Definition hexval (c : ascii) : option Z :=
  if is_digit c then Some (code c - 48)
  else if between 65 70 c then Some (code c - 55)
  else if between 97 102 c then Some (code c - 87)
  else None.

(** A "%" followed by two hexadecimal digits is the byte they denote; any
    other "%" stands for itself.  The library then decodes the bytes as
    UTF-8 with errors='replace'; here an undecodable byte is kept as it
    is. *)
Fixpoint unquote (s : string) : string :=
  match s with
  | EmptyString => EmptyString
  | String c rest =>
      if Ascii.eqb c "%" then
        match rest with
        | String h (String l r) =>
            match hexval h, hexval l with
            | Some a, Some b => String (chr (16 * a + b)) (unquote r)
            | _, _ => String c (unquote rest)
            end
        | _ => String c (unquote rest)
        end
      else String c (unquote rest)
  end.

Definition plus_to_space (c : ascii) : ascii :=
  if Ascii.eqb c "+" then " "%char else c.

(** [parse_qsl(qs)] with its defaults: fields are separated by "&"; a field
    without "=" or with an empty value is skipped. *)
Definition parse_qsl (qs : string) : list (string * string) :=
  flat_map
    (fun name_value =>
       match cut "=" name_value with
       | Some (n, String _ _ as v) =>
           [(unquote (map_str plus_to_space n), unquote (map_str plus_to_space v))]
       | _ => []
       end)
    (split "&" qs).

Definition parse_qs (qs : string) : result (gmap string (list string)) :=
  Return
    (fold_left
       (fun (parsed_result : gmap string (list string)) '(name, value) =>
          match parsed_result !! name with
          | Some values => <[name := values ++ [value]]> parsed_result
          | None => <[name := [value]]> parsed_result
          end)
       (parse_qsl qs) ∅).

(** ** int *)

Definition is_space (c : ascii) : bool := between 9 13 c || Ascii.eqb c " ".

Fixpoint rstrip_set (f : ascii → bool) (s : string) : string :=
  match s with
  | EmptyString => EmptyString
  | String c r =>
      match rstrip_set f r with
      | EmptyString => if f c then EmptyString else String c EmptyString
      | r' => String c r'
      end
  end.

(** Decimal digits, with single underscores allowed between digits. *)
Fixpoint digits_value (s : string) (acc : Z) (after_digit : bool) : option Z :=
  match s with
  | EmptyString => if after_digit then Some acc else None
  | String c r =>
      if is_digit c then digits_value r (10 * acc + (code c - 48)) true
      else if Ascii.eqb c "_" && after_digit then digits_value r acc false
      else None
  end.

(** [int(s)] for a [str]: surrounding white space, an optional sign, decimal
    digits.  Only ASCII digits and white space are recognised, and the
    library's limit on the number of digits is left out. *)
Definition int (s : string) : result Z :=
  let s := rstrip_set is_space (lstrip_set is_space s) in
  let '(sign, s) :=
    match s with
    | String "-" r => (-1, r)
    | String "+" r => (1, r)
    | _ => (1, s)
    end in
  match digits_value s 0 false with
  | Some n => Return (sign * n)
  | None => Raise ValueError
  end.

(** ** base64.urlsafe_b64decode *)

Definition b64value (c : ascii) : option Z :=
  if is_upper c then Some (code c - 65)
  else if is_lower c then Some (code c - 71)
  else if is_digit c then Some (code c + 4)
  else if Ascii.eqb c "+" then Some 62
  else if Ascii.eqb c "/" then Some 63
  else None.

Definition byte_of_Z (n : Z) : byte :=
  default x00 (Byte.of_N (Z.to_N (Z.land n 255))).

(** [binascii.a2b_base64(s)], not strict: characters outside the alphabet
    are skipped; a complete run of padding ends the input. *)
Fixpoint a2b_base64 (s : string) (quad_pos leftchar pads : Z) (out : list byte)
  : result (list byte) :=
  match s with
  | EmptyString =>
      if quad_pos =? 0 then Return out else Raise binascii_Error
  | String this_ch r =>
      if Ascii.eqb this_ch "=" then
        if (2 <=? quad_pos) && (4 <=? quad_pos + (pads + 1)) then Return out
        else a2b_base64 r quad_pos leftchar
               (if 2 <=? quad_pos then pads + 1 else pads) out
      else
        match b64value this_ch with
        | None => a2b_base64 r quad_pos leftchar pads out
        | Some v =>
            if quad_pos =? 0 then a2b_base64 r 1 v 0 out
            else if quad_pos =? 1 then
              a2b_base64 r 2 (Z.land v 15) 0
                (out ++ [byte_of_Z (Z.lor (Z.shiftl leftchar 2) (Z.shiftr v 4))])
            else if quad_pos =? 2 then
              a2b_base64 r 3 (Z.land v 3) 0
                (out ++ [byte_of_Z (Z.lor (Z.shiftl leftchar 4) (Z.shiftr v 2))])
            else
              a2b_base64 r 0 0 0
                (out ++ [byte_of_Z (Z.lor (Z.shiftl leftchar 6) v)])
        end
  end.

Definition urlsafe_translate (c : ascii) : ascii :=
  if Ascii.eqb c "-" then "+"%char
  else if Ascii.eqb c "_" then "/"%char
  else c.

Definition urlsafe_b64decode (s : string) : result (list byte) :=
  if negb (forallb_str (between 0 127) s) then Raise ValueError
  else a2b_base64 (map_str urlsafe_translate s) 0 0 0 [].

(** ** The protobuf wire format and the messages of auth_migration.proto *)

Inductive wire_value : Set :=
| Varint (n : Z)
| Fixed64 (bs : list byte)
| LengthDelimited (bs : list byte)
| Fixed32 (bs : list byte).

(** A base-128 varint of at most [n] bytes, as an unsigned 64-bit value. *)
Fixpoint varint (n : nat) (bs : list byte) (shift acc : Z) : option (Z * list byte) :=
  match n, bs with
  | S n, b :: r =>
      let acc := Z.lor acc (Z.shiftl (Z.land (byteZ b) 127) shift) in
      if byteZ b <? 128 then Some (acc mod 2 ^ 64, r)
      else varint n r (shift + 7) acc
  | _, _ => None
  end.

Definition take_bytes (n : Z) (bs : list byte) : option (list byte * list byte) :=
  if n <=? Z.of_nat (length bs)
  then Some (firstn (Z.to_nat n) bs, skipn (Z.to_nat n) bs)
  else None.

(** The value that follows a tag.  The group wire types 3 and 4, which the
    library skips, are rejected like the undefined types 6 and 7. *)
Definition read_value (wire_type : Z) (bs : list byte) : option (wire_value * list byte) :=
  if wire_type =? 0 then
    '(n, r) ← varint 10 bs 0 0; Some (Varint n, r)
  else if wire_type =? 1 then
    '(v, r) ← take_bytes 8 bs; Some (Fixed64 v, r)
  else if wire_type =? 2 then
    '(n, r) ← varint 10 bs 0 0;
    '(v, r) ← take_bytes n r; Some (LengthDelimited v, r)
  else if wire_type =? 5 then
    '(v, r) ← take_bytes 4 bs; Some (Fixed32 v, r)
  else None.

(** The fields of a message, in order.  Every field takes at least one byte,
    so the length of the input is enough fuel. *)
Fixpoint read_fields (fuel : nat) (bs : list byte) : option (list (Z * wire_value)) :=
  match bs, fuel with
  | [], _ => Some []
  | _, O => None
  | _, S fuel =>
      '(tag, r) ← varint 10 bs 0 0;
      let field_number := Z.shiftr tag 3 in
      if field_number =? 0 then None else
      '(v, r) ← read_value (Z.land tag 7) r;
      fields ← read_fields fuel r;
      Some ((field_number, v) :: fields)
  end.

Definition bytes_of (field_number : Z) (fields : list (Z * wire_value)) : list (list byte) :=
  flat_map (fun '(k, v) =>
              match v with
              | LengthDelimited bs => if k =? field_number then [bs] else []
              | _ => []
              end) fields.

Definition varints_of (field_number : Z) (fields : list (Z * wire_value)) : list Z :=
  flat_map (fun '(k, v) =>
              match v with
              | Varint n => if k =? field_number then [n] else []
              | _ => []
              end) fields.

Definition int32 (n : Z) : Z :=
  let m := n mod 2 ^ 32 in if m <? 2 ^ 31 then m else m - 2 ^ 32.

Definition int64 (n : Z) : Z :=
  let m := n mod 2 ^ 64 in if m <? 2 ^ 63 then m else m - 2 ^ 64.

Definition continuation (b : byte) : bool :=
  (128 <=? byteZ b) && (byteZ b <=? 191).

(** Well-formed UTF-8, as a proto3 string field must be. *)
Fixpoint utf8_valid (bs : list byte) : bool :=
  match bs with
  | [] => true
  | a :: r =>
      let a := byteZ a in
      if a <? 128 then utf8_valid r
      else
        match r with
        | b :: r2 =>
            if (194 <=? a) && (a <=? 223) then continuation b && utf8_valid r2
            else
              match r2 with
              | c :: r3 =>
                  if (224 <=? a) && (a <=? 239) then
                    ((if a =? 224 then 160 else 128) <=? byteZ b)
                    && (byteZ b <=? (if a =? 237 then 159 else 191))
                    && continuation c && utf8_valid r3
                  else
                    match r3 with
                    | d :: r4 =>
                        (240 <=? a) && (a <=? 244)
                        && ((if a =? 240 then 144 else 128) <=? byteZ b)
                        && (byteZ b <=? (if a =? 244 then 143 else 191))
                        && continuation c && continuation d && utf8_valid r4
                    | [] => false
                    end
              | [] => false
              end
        | [] => false
        end
  end.

(** OtpParameters, with the field numbers of the export format, which the
    payload in src/decode_migration.py shows for the first six: secret = 1,
    name = 2, issuer = 3, algorithm = 4, digits = 5, type = 6, counter = 7.
    The last occurrence of a field wins; a field of another number or wire
    type is skipped. *)
Definition parse_otp_parameters (bs : list byte) : option OtpParameters.t :=
  fields ← read_fields (S (length bs)) bs;
  if forallb utf8_valid (bytes_of 2 fields ++ bytes_of 3 fields) then
    Some {| OtpParameters.secret := List.last (bytes_of 1 fields) [];
            OtpParameters.name :=
              string_of_list_byte (List.last (bytes_of 2 fields) []);
            OtpParameters.issuer :=
              string_of_list_byte (List.last (bytes_of 3 fields) []);
            OtpParameters.algorithm := int32 (List.last (varints_of 4 fields) 0);
            OtpParameters.digits := int32 (List.last (varints_of 5 fields) 0);
            OtpParameters.type := int32 (List.last (varints_of 6 fields) 0);
            OtpParameters.counter := int64 (List.last (varints_of 7 fields) 0) |}
  else None.

(** MigrationPayload: otp_parameters = 1 (repeated), version = 2,
    batch_size = 3, batch_index = 4, batch_id = 5; setup.py reads the
    entries only. *)
Definition parse_migration_payload (bs : list byte) : option MigrationPayload :=
  fields ← read_fields (S (length bs)) bs;
  otps ← mapM parse_otp_parameters (bytes_of 1 fields);
  Some {| otp_parameters := otps;
          version := int32 (List.last (varints_of 2 fields) 0);
          batch_size := int32 (List.last (varints_of 3 fields) 0);
          batch_index := int32 (List.last (varints_of 4 fields) 0);
          batch_id := int32 (List.last (varints_of 5 fields) 0) |}.

Definition ParseFromString (payload : list byte) : result MigrationPayload :=
  match parse_migration_payload payload with
  | Some migration => Return migration
  | None => Raise DecodeError
  end.

(** ** json.dumps *)

Definition nl : string := String "010" EmptyString.
Definition dquote : string := String "034" EmptyString.

Definition hex_digit (n : Z) : ascii :=
  nth (Z.to_nat (Z.land n 15)) (list_ascii_of_string "0123456789abcdef") "0"%char.

Definition u_escape (n : Z) : string :=
  "\u" +:+ string_of_list_ascii
             (map (fun k => hex_digit (Z.shiftr n k)) [12; 8; 4; 0]).

(** A code point, as one escape or as a surrogate pair. *)
Definition escape_code_point (cp : Z) : string :=
  if cp <? 65536 then u_escape cp
  else u_escape (55296 + Z.shiftr (cp - 65536) 10)
       +:+ u_escape (56320 + Z.land (cp - 65536) 1023).

Definition escape_ascii (c : ascii) : string :=
  if Ascii.eqb c "034" then "\" +:+ dquote
  else if Ascii.eqb c "\" then "\\"
  else if Ascii.eqb c "010" then "\n"
  else if Ascii.eqb c "013" then "\r"
  else if Ascii.eqb c "009" then "\t"
  else if Ascii.eqb c "008" then "\b"
  else if Ascii.eqb c "012" then "\f"
  else if between 32 126 c then String c EmptyString
  else u_escape (code c).

Definition low6 (c : ascii) : Z := Z.land (code c) 63.

(** The body of a JSON string with ensure_ascii: the characters of the
    UTF-8 text [s], escaped. *)
Fixpoint encode_basestring_ascii (s : string) : string :=
  match s with
  | EmptyString => EmptyString
  | String a r =>
      if code a <? 128 then escape_ascii a +:+ encode_basestring_ascii r
      else
        match r with
        | String b r2 =>
            if code a <? 224 then
              escape_code_point (Z.lor (Z.shiftl (Z.land (code a) 31) 6) (low6 b))
              +:+ encode_basestring_ascii r2
            else
              match r2 with
              | String c r3 =>
                  if code a <? 240 then
                    escape_code_point
                      (Z.lor (Z.shiftl (Z.land (code a) 15) 12)
                         (Z.lor (Z.shiftl (low6 b) 6) (low6 c)))
                    +:+ encode_basestring_ascii r3
                  else
                    match r3 with
                    | String d r4 =>
                        escape_code_point
                          (Z.lor (Z.shiftl (Z.land (code a) 7) 18)
                             (Z.lor (Z.shiftl (low6 b) 12)
                                (Z.lor (Z.shiftl (low6 c) 6) (low6 d))))
                        +:+ encode_basestring_ascii r4
                    | EmptyString => u_escape (code a) +:+ encode_basestring_ascii r
                    end
              | EmptyString => u_escape (code a) +:+ encode_basestring_ascii r
              end
        | EmptyString => u_escape (code a)
        end
  end.

Definition json_str (s : string) : string :=
  dquote +:+ encode_basestring_ascii s +:+ dquote.

Definition json_int (n : Z) : string :=
  DecimalString.NilEmpty.string_of_int (Z.to_int n).

Definition json_account (acc : Account) : string :=
  "    {" +:+ nl
  +:+ "      " +:+ json_str "name" +:+ ": " +:+ json_str (name acc) +:+ "," +:+ nl
  +:+ "      " +:+ json_str "secret" +:+ ": " +:+ json_str (secret acc) +:+ "," +:+ nl
  +:+ "      " +:+ json_str "digits" +:+ ": " +:+ json_int (digits acc) +:+ "," +:+ nl
  +:+ "      " +:+ json_str "algorithm" +:+ ": " +:+ json_str (algorithm acc) +:+ nl
  +:+ "    }".

Fixpoint join (sep : string) (l : list string) : string :=
  match l with
  | [] => EmptyString
  | [x] => x
  | x :: r => x +:+ sep +:+ join sep r
  end.

(** [json.dumps({"accounts": accounts}, indent=2)] *)
Definition json_dumps (accounts : list Account) : string :=
  "{" +:+ nl +:+ "  " +:+ json_str "accounts" +:+ ": "
  +:+ match accounts with
      | [] => "[]"
      | _ => "[" +:+ nl +:+ join ("," +:+ nl) (map json_account accounts)
             +:+ nl +:+ "  ]"
      end
  +:+ nl +:+ "}".

Definition lib : PyLib :=
  Build_PyLib urlparse unquote parse_qs str_upper int urlsafe_b64decode
    ParseFromString json_dumps.

End CPython.

(** * The console

    The handlers of the two parsers print the exception before they return
    None (lines 163 and 228).  [print] encodes its text for the standard
    output and raises [UnicodeEncodeError] when the encoding has no form for
    it; what a handler raises leaves the function. *)

Module Console.

(** The warning sign of the two messages: U+26A0 and U+FE0F. *)
Definition warning_sign : string :=
  string_of_list_byte [xe2; x9a; xa0; xef; xb8; x8f].

(** The f-strings of lines 163 and 228, with the text of the exception. *)
Definition otpauth_message (text : string) : string :=
  "   " +:+ warning_sign +:+ "  Error parsing URL: " +:+ text.

Definition migration_message (text : string) : string :=
  "   " +:+ warning_sign +:+ "  Error parsing migration URL: " +:+ text.

Section Parsers.
Context {L : PyLib}.

(** [print(s)] on the standard output. *)
Variable print : string → result unit.

(** [str(e)] for the exception [e] that the [try] block raises on a URL.
    An [exn] is the class of the exception alone; its text is what the
    raising call made of its argument, and so a function of the URL. *)
Variable str_e : string → exn → string.

(** Lines 104-164, with the handler as it is written. *)
Definition parse_otpauth_url (url : string) : result (option Account) :=
  try_except (parse_otpauth_url_try url)
    (fun e => print (otpauth_message (str_e url e));; mret None).

(** Lines 166-229, with the handler as it is written. *)
Definition parse_migration_url (url : string)
  : result (option (list Account)) :=
  try_except (parse_migration_url_try url)
    (fun e => print (migration_message (str_e url e));; mret None).

End Parsers.

(** ** A reference console, and urlparse with its check of the host *)

(** [print(s)] on a standard output whose encoding is UTF-8 with
    [errors="strict"]: the text is encoded when it is written, and a
    surrogate has no UTF-8 form.  [UnicodeEncodeError] is a subclass of
    [ValueError]. *)
Definition print_utf8 (s : string) : result unit :=
  if CPython.utf8_valid (list_byte_of_string s) then Return tt
  else Raise ValueError.

(** The code points whose NFKC form holds one of "/", "?", "#", "@" and
    ":", in UTF-8: U+2047 to U+2049, U+2100, U+2101, U+2105, U+2106, U+2A74,
    U+FE13, U+FE16, U+FE55, U+FE56, U+FE5F, U+FE6B, U+FF03, U+FF0F, U+FF1A,
    U+FF1F and U+FF20. *)
Definition nfkc_delimiters : list (list byte) :=
  [[xe2; x81; x87]; [xe2; x81; x88]; [xe2; x81; x89];
   [xe2; x84; x80]; [xe2; x84; x81]; [xe2; x84; x85]; [xe2; x84; x86];
   [xe2; xa9; xb4];
   [xef; xb8; x93]; [xef; xb8; x96];
   [xef; xb9; x95]; [xef; xb9; x96]; [xef; xb9; x9f]; [xef; xb9; xab];
   [xef; xbc; x83]; [xef; xbc; x8f]; [xef; xbc; x9a]; [xef; xbc; x9f];
   [xef; xbc; xa0]].

(** [sub in s] *)
Definition str_contains (sub s : string) : bool :=
  match String.index 0 sub s with
  | Some _ => true
  | None => false
  end.

(** [_checknetloc(netloc)]: [ValueError] when the NFKC form of the host
    holds one of "/", "?", "#", "@" and ":", none of which the host itself
    holds after the removals the check makes; that is when the host holds
    one of the code points above. *)
Definition checknetloc (netloc : string) : result unit :=
  if existsb (fun c => str_contains (string_of_list_byte c) netloc)
       nfkc_delimiters
  then Raise ValueError
  else Return tt.

(** The text of that [ValueError]. *)
Definition checknetloc_text (netloc : string) : string :=
  "netloc '" +:+ netloc
  +:+ "' contains invalid characters under NFKC normalization".

(** [urllib.parse.urlparse] with the check of the host, which
    [CPython.urlparse] leaves out; [urlsplit] makes it last, before it
    builds the result. *)
Definition urlparse (url : string) : result ParseResult :=
  parsed ← CPython.urlparse url;
  checknetloc (netloc parsed);;
  mret parsed.

Definition lib : PyLib :=
  Build_PyLib urlparse CPython.unquote CPython.parse_qs CPython.str_upper
    CPython.int CPython.urlsafe_b64decode CPython.ParseFromString
    CPython.json_dumps.

End Console.

(** * The dispatcher and the check of accounts.json *)

(** [bs.decode("utf-8")]: the text whose UTF-8 bytes are [bs].
    [UnicodeDecodeError] is a subclass of [ValueError]. *)
Definition decode_utf8 (bs : list byte) : result string :=
  if CPython.utf8_valid bs then Return (string_of_list_byte bs)
  else Raise ValueError.

(** [open(p, "rb")] and reading the whole file. *)
Definition open_r (p : Path) (fs : FS) : result string :=
  match node_at p fs with
  | Some (File contents) => Return contents
  | Some Dir => Raise IsADirectoryError
  | None => Raise FileNotFoundError
  end.

(** [for result in results: urls.append(result.data.decode("utf-8"))] *)
Fixpoint results_loop (results : list (list byte)) (urls : list string)
  : result (list string) :=
  match results with
  | [] => mret urls
  | data :: rest =>
      data ← decode_utf8 data;
      results_loop rest (urls ++ [data])
  end.

(** A value that [json.load] returns.  A number carries no value: the code
    looks at the kind of the value and at its length only. *)
#[warnings="-register-all"]
Inductive json : Set :=
| JNull
| JBool (b : bool)
| JNumber
| JString (s : string)
| JArray (items : list json)
| JObject (members : list (string * json)).

(** What [json.load] does on the contents of a file: it returns a value,
    raises [json.JSONDecodeError], or raises something else (for one,
    [UnicodeDecodeError] while reading). *)
Inductive load_outcome : Set :=
| Loaded (data : json)
| JSONDecodeError
| LoadRaises (e : exn).

(** What [check_accounts_json] does: it returns, or an exception leaves
    it. *)
Inductive check_outcome : Set :=
| Checked (ok : bool)
| TypeError
| CheckRaises (e : exn).

(** [key in members] and [members[key]] for the members of an object, the
    last member of a name winning as in a [dict]. *)
Fixpoint member (key : string) (members : list (string * json)) : option json :=
  match members with
  | [] => None
  | (k, v) :: rest =>
      match member key rest with
      | Some later => Some later
      | None => if (k =? key)%string then Some v else None
      end
  end.

(** The number of characters of a text: the bytes that do not continue a
    UTF-8 sequence. *)
Definition str_len (s : string) : nat :=
  length (filter (fun b => negb (CPython.continuation b)) (list_byte_of_string s)).

(** The number of distinct names among the members of an object. *)
Fixpoint distinct_names (members : list (string * json)) : nat :=
  match members with
  | [] => O
  | (k, _) :: rest =>
      match member k rest with
      | Some _ => distinct_names rest
      | None => S (distinct_names rest)
      end
  end.

(** [len(x)]: [None] when the value has no length ([TypeError]). *)
Definition json_len (x : json) : option nat :=
  match x with
  | JString s => Some (str_len s)
  | JArray items => Some (length items)
  | JObject members => Some (distinct_names members)
  | JNull | JBool _ | JNumber => None
  end.

Section Dispatcher.
Context {L : PyLib}.
Variable PROJECT_ROOT : list string.

(** The imports of [decode_qr_image], [Image.open] on a file with the given
    contents and [decode]: the [data] of each result. *)
Variable qr_decode : string → result (list (list byte)).

(** [json.load] on a file with the given contents. *)
Variable json_load : string → load_outcome.

Definition IMG_PNG : Path := joinpath PROJECT_ROOT "img.png".

(** The [try] block of [decode_qr_image] (lines 234-245). *)
Definition decode_qr_image_try (img_path : Path) (fs : FS) : result (list string) :=
  contents ← open_r img_path fs;
  results ← qr_decode contents;
  let urls := [] in
  results_loop results urls.

Definition decode_qr_image (img_path : Path) (fs : FS) : result (list string) :=
  try_except (decode_qr_image_try img_path fs) (fun e => mret []).

(** The loop of [process_qr_code] (lines 265-280). *)
Fixpoint urls_loop (urls : list string) (accounts : list Account)
  : result (list Account) :=
  match urls with
  | [] => mret accounts
  | url :: rest =>
      if String.prefix "otpauth://" url then
        account ← parse_otpauth_url url;
        match account with
        | Some account => urls_loop rest (accounts ++ [account])
        | None => urls_loop rest accounts
        end
      else if String.prefix "otpauth-migration://" url then
        migration_accounts ← parse_migration_url url;
        match migration_accounts with
        | Some ((_ :: _) as migration_accounts) =>
            urls_loop rest (accounts ++ migration_accounts)
        | _ => urls_loop rest accounts
        end
      else urls_loop rest accounts
  end.

Definition process_qr_code (fs : FS) : result (option (list Account)) :=
  if negb (path_exists IMG_PNG fs) then mret None else
  urls ← decode_qr_image IMG_PNG fs;
  match urls with
  | [] => mret None
  | _ =>
      let accounts := [] in
      accounts ← urls_loop urls accounts;
      match accounts with
      | [] => mret None
      | _ => mret (Some accounts)
      end
  end.

Definition check_accounts_json (fs : FS) : check_outcome :=
  if path_exists (CSHARP_ACCOUNTS_JSON PROJECT_ROOT) fs then
    match open_r (CSHARP_ACCOUNTS_JSON PROJECT_ROOT) fs with
    | Raise e => CheckRaises e
    | Return contents =>
        match json_load contents with
        | JSONDecodeError => Checked false
        | LoadRaises e => CheckRaises e
        | Loaded data =>
            match data with
            | JObject members =>
                match member "accounts" members with
                | Some accounts =>
                    match json_len accounts with
                    | Some count => Checked true
                    | None => TypeError
                    end
                | None => let count := O in Checked true
                end
            | _ => let count := O in Checked true
            end
        end
    end
  else Checked false.

End Dispatcher.

(** * Base32 decoding *)

(** The value of a character of the Base32 alphabet. *)
Definition b32value (c : ascii) : option Z :=
  if CPython.is_upper c then Some (CPython.code c - 65)
  else if CPython.between 50 55 c then Some (CPython.code c - 24)
  else None.

(** The 40-bit number of eight values, the first one highest. *)
Fixpoint b32number (values : list Z) (acc : Z) : Z :=
  match values with
  | [] => acc
  | v :: rest => b32number rest (Z.lor (Z.shiftl acc 5) v)
  end.

(** The five bytes of a 40-bit number. *)
Definition b32bytes (n : Z) : list byte :=
  map (fun k => CPython.byte_of_Z (Z.shiftr n k)) [32; 24; 16; 8; 0].

(** The values of the characters before the padding. *)
Fixpoint b32data (g : list ascii) : list Z :=
  match g with
  | [] => []
  | c :: rest =>
      match b32value c with
      | Some v => v :: b32data rest
      | None => []
      end
  end.

(** The bytes of one group of eight characters: 8, 7, 5, 4 or 2 characters
    of data, followed by padding, hold 5, 4, 3, 2 or 1 bytes. *)
Definition b32decode_group (g : list ascii) : option (list byte) :=
  let data := b32data g in
  let n := b32number (data ++ repeat 0 (8 - length data)) 0 in
  if forallb (Ascii.eqb "=") (skipn (length data) g) then
    match length data with
    | 8%nat => Some (b32bytes n)
    | 7%nat => Some (firstn 4 (b32bytes n))
    | 5%nat => Some (firstn 3 (b32bytes n))
    | 4%nat => Some (firstn 2 (b32bytes n))
    | 2%nat => Some (firstn 1 (b32bytes n))
    | _ => None
    end
  else None.

(** [base64.b32decode] on padded upper-case text: [None] where the library
    raises. *)
Fixpoint b32decode (s : string) : option (list byte) :=
  match s with
  | EmptyString => Some []
  | String c1 (String c2 (String c3 (String c4
      (String c5 (String c6 (String c7 (String c8 rest))))))) =>
      bytes ← b32decode_group [c1; c2; c3; c4; c5; c6; c7; c8];
      if (length bytes <? 5)%nat then
        match rest with
        | EmptyString => Some bytes
        | _ => None
        end
      else
        more ← b32decode rest;
        Some (bytes ++ more)
  | _ => None
  end.

(** The 40-bit number that [b32group] cuts into characters. *)
Definition group_bits (a b c d e : byte) : Z :=
  Z.lor (Z.shiftl (byteZ a) 32)
    (Z.lor (Z.shiftl (byteZ b) 24)
       (Z.lor (Z.shiftl (byteZ c) 16)
          (Z.lor (Z.shiftl (byteZ d) 8) (byteZ e)))).

(** * What the dispatcher collects *)

(** What an account of either parser satisfies: a name, 6 to 8 digits, one
    of the four algorithm names. *)
Definition account_ok (acc : Account) : Prop :=
  name acc ≠ EmptyString
  ∧ (digits acc = 6 ∨ digits acc = 7 ∨ digits acc = 8)
  ∧ In (algorithm acc) ["SHA1"; "SHA256"; "SHA512"; "MD5"].

Section Contribution.
Context {L : PyLib}.

(** The accounts one decoded text adds to the list of [process_qr_code]. *)
Definition url_accounts (url : string) : list Account :=
  if String.prefix "otpauth://" url then
    match parse_otpauth_url url with
    | Return (Some account) => [account]
    | _ => []
    end
  else if String.prefix "otpauth-migration://" url then
    match parse_migration_url url with
    | Return (Some migration_accounts) => migration_accounts
    | _ => []
    end
  else [].

End Contribution.

(** The file system with the two directories of the tray application. *)
Definition with_tray_dirs (PROJECT_ROOT : list string)
    (fs : gmap (list string) node) : gmap (list string) node :=
  <[CSHARP_TRAY_DIR PROJECT_ROOT := Dir]>
    (<[joinpath PROJECT_ROOT "csharp-tray" := Dir]> fs).

(** * The rules of the specification *)

(** The composition rule of section 4.4, in the specification's words: both
    present, only the issuer, only the name, neither. *)
Definition compose_display_name (issuer name : string) : string :=
  match issuer, name with
  | String _ _, String _ _ => issuer +:+ " (" +:+ name +:+ ")"
  | String _ _, EmptyString => issuer
  | EmptyString, String _ _ => name
  | EmptyString, EmptyString => "Unknown"
  end.

(** Two Base32 texts are equivalent when they differ in padding only
    (section 3: padded or unpadded). *)
Definition unpadded (s : string) : string :=
  CPython.rstrip_set (Ascii.eqb "=") s.

Definition b32_equivalent (s t : string) : Prop := unpadded s = unpadded t.

(** * Example inputs *)

Definition otp_default : OtpParameters.t :=
  {| OtpParameters.secret := []; OtpParameters.name := "";
     OtpParameters.issuer := ""; OtpParameters.algorithm := 0;
     OtpParameters.digits := 0; OtpParameters.type := 0;
     OtpParameters.counter := 0 |}.

(** The payload of the specification's example: two entries, the first with
    secret 00 01, name "Ericlein" and issuer "GitHub", the second with
    secret FF and issuer "Discord". *)
Definition two_entries_payload : list byte :=
  [x0a; x16; x0a; x02; x00; x01;
   x12; x08; x45; x72; x69; x63; x6c; x65; x69; x6e;
   x1a; x06; x47; x69; x74; x48; x75; x62;
   x0a; x0c; x0a; x01; xff;
   x1a; x07; x44; x69; x73; x63; x6f; x72; x64].

Definition two_entries_url : string :=
  "otpauth-migration://offline?data=ChYKAgABEghFcmljbGVpbhoGR2l0SHViCgwKAf8aB0Rpc2NvcmQ%3D".

Definition two_entries : list OtpParameters.t :=
  [{| OtpParameters.secret := [x00; x01]; OtpParameters.name := "Ericlein";
      OtpParameters.issuer := "GitHub"; OtpParameters.algorithm := 0;
      OtpParameters.digits := 0; OtpParameters.type := 0;
      OtpParameters.counter := 0 |};
   {| OtpParameters.secret := [xff]; OtpParameters.name := "";
      OtpParameters.issuer := "Discord"; OtpParameters.algorithm := 0;
      OtpParameters.digits := 0; OtpParameters.type := 0;
      OtpParameters.counter := 0 |}].

(** A payload with one entry whose algorithm, digits and type codes are 2,
    followed by the batch fields. *)
Definition eight_digits_payload : list byte :=
  [x0a; x1c; x0a; x02; x00; x01;
   x12; x08; x45; x72; x69; x63; x6c; x65; x69; x6e;
   x1a; x06; x47; x69; x74; x48; x75; x62;
   x20; x02; x28; x02; x30; x02;
   x10; x01; x18; x01; x20; x00; x28; x85; x01].

Definition eight_digits_url : string :=
  "otpauth-migration://offline?data=ChwKAgABEghFcmljbGVpbhoGR2l0SHViIAIoAjACEAEYASAAKIUB".

(** A project under /home/user/tray whose accounts.json exists. *)
Definition example_root : list string := ["tray"; "user"; "home"].

Definition example_fs : gmap (list string) node :=
  <[CSHARP_ACCOUNTS_JSON example_root := File "{}"]>
    (<[CSHARP_TRAY_DIR example_root := Dir]>
       (<["csharp-tray" :: example_root := Dir]>
          (<[example_root := Dir]>
             (<[["user"; "home"] := Dir]> (<[["home"] := Dir]> ∅))))).

Definition example_updated : list string :=
  joinpath (CSHARP_TRAY_DIR example_root) "updated_accounts.json".

(** A URL with a valid secret and a digits parameter that is not a
    number. *)
Definition digits_abc_url : string :=
  "otpauth://totp/Example?secret=JBSWY3DPEHPK3PXP&digits=abc".

Definition example_account_1 : Account :=
  {| name := "GitHub (Ericlein)"; secret := "AAAQ===="; digits := 6;
     algorithm := "SHA1" |}.

Definition example_account_2 : Account :=
  {| name := "Discord"; secret := "74======"; digits := 6;
     algorithm := "SHA1" |}.

(** A project directory without the directories of the tray
    application. *)
Definition fresh_fs : gmap (list string) node :=
  <[joinpath example_root "img.png" := File "PNG"]>
    (<[example_root := Dir]>
       (<[["user"; "home"] := Dir]> (<[["home"] := Dir]> ∅))).

Definition example_otpauth_url : string :=
  "otpauth://totp/Example:alice?secret=JBSWY3DPEHPK3PXP&algorithm=sha256&digits=8".

(** An image with three codes: a single account, the migration payload
    with two entries, and a text that is no OTP URL. *)
Definition qr_decode_three (contents : string) : result (list (list byte)) :=
  Return [list_byte_of_string example_otpauth_url;
          list_byte_of_string two_entries_url;
          list_byte_of_string "https://example.com/"].

(** An image whose second code is not UTF-8 text. *)
Definition qr_decode_bad_text (contents : string) : result (list (list byte)) :=
  Return [list_byte_of_string example_otpauth_url; [xff; xfe]].

(** A file with an object whose "accounts" member is the number 5. *)
Definition accounts_is_5 : string :=
  "{" +:+ CPython.dquote +:+ "accounts" +:+ CPython.dquote +:+ ": 5}".

(** [json.load] on the files of the examples: "[]", "{}" and
    [accounts_is_5]; it is a table of these contents, not a parser, and
    the examples give it no other text. *)
Definition json_load_sample (contents : string) : load_outcome :=
  if (contents =? "[]")%string then Loaded (JArray [])
  else if (contents =? "{}")%string then Loaded (JObject [])
  else if (contents =? accounts_is_5)%string
       then Loaded (JObject [("accounts", JNumber)])
       else JSONDecodeError.

(** The example file system with other contents in accounts.json. *)
Definition example_fs_with (contents : string) : gmap (list string) node :=
  <[CSHARP_ACCOUNTS_JSON example_root := File contents]> example_fs.



(** * Properties *)

(** ** The [result] monad *)

Lemma bind_Return {A B} (f : A → result B) (a : A) :
  (Return a ≫= f) = f a.
Proof. reflexivity. Qed.

Lemma bind_Raise {A B} (f : A → result B) (e : exn) :
  (Raise e ≫= f) = Raise e.
Proof. reflexivity. Qed.

Lemma bind_Return_inv {A B} (f : A → result B) (m : result A) (b : B) :
  (m ≫= f) = Return b → ∃ a, m = Return a ∧ f a = Return b.
Proof. destruct m as [a|e]; [eauto | discriminate]. Qed.

(** Take one [←] step of a block that returned. *)
Ltac bind_inv H :=
  let a := fresh "v" in
  let Ha := fresh "Hstep" in
  apply bind_Return_inv in H as (a & Ha & H).

Lemma try_except_returns {A} (body : result (option A)) :
  ∃ r, try_except body (fun _ => mret None) = Return r.
Proof. destruct body as [r|e]; simpl; eauto. Qed.

Lemma try_except_Some {A} (body : result (option A)) (a : A) :
  try_except body (fun _ => mret None) = Return (Some a) ↔ body = Return (Some a).
Proof.
  destruct body as [r|e]; unfold try_except, mret, result_ret;
    split; congruence.
Qed.

(** ** Strings *)

Lemma truthy_true (s : string) : truthy s = true ↔ s ≠ EmptyString.
Proof. destruct s; simpl; split; congruence. Qed.

Lemma str_in_app (c : ascii) (s t : string) :
  str_in c (s +:+ t) = str_in c s || str_in c t.
Proof.
  induction s as [|a s IH]; simpl; [reflexivity|].
  destruct (Ascii.eqb a c); [reflexivity | exact IH].
Qed.

(** [cut] cuts at the first occurrence. *)
Lemma cut_first (c : ascii) (before after : string) :
  str_in c before = false →
  cut c (before +:+ String c after) = Some (before, after).
Proof.
  induction before as [|a s IH]; simpl; intros Hin.
  - rewrite Ascii.eqb_refl. reflexivity.
  - destruct (Ascii.eqb a c); [discriminate|]. rewrite (IH Hin). reflexivity.
Qed.

Lemma cut_Some (c : ascii) (s before after : string) :
  cut c s = Some (before, after) →
  s = before +:+ String c after ∧ str_in c before = false.
Proof.
  revert before. induction s as [|a s IH]; simpl; intros before Hp; [discriminate|].
  destruct (Ascii.eqb a c) eqn:Hac.
  - apply Ascii.eqb_eq in Hac. inversion Hp; subst. split; reflexivity.
  - destruct (cut c s) as [[h t]|]; [|discriminate].
    inversion Hp; subst. destruct (IH h eq_refl) as [-> Hh].
    simpl. rewrite Hac. split; [reflexivity | exact Hh].
Qed.

Lemma str_in_cut (c : ascii) (s : string) :
  str_in c s = true → ∃ before after, cut c s = Some (before, after).
Proof.
  induction s as [|a s IH]; simpl; [discriminate|].
  destruct (Ascii.eqb a c); [eauto|].
  intros Hin. destruct (IH Hin) as (h & t & ->). eauto.
Qed.

(** ** The label *)

(** With a colon in the label and an issuer parameter, the parameter is the
    issuer and the text after the first colon is the account name. *)
Lemma split_label_colon_issuer (c : ascii) (i before after : string) :
  str_in ":" before = false →
  split_label (Some (String c i)) (before +:+ String ":" after)
  = Return (String c i, after).
Proof.
  intros Hb. unfold split_label, split1.
  rewrite str_in_app, cut_first by exact Hb.
  simpl. rewrite orb_true_r. reflexivity.
Qed.

(** With a colon in the label and no issuer parameter (or an empty one), the
    label is cut at its first colon. *)
Lemma split_label_colon_no_issuer (issuer : option string) (before after : string) :
  issuer = None ∨ issuer = Some EmptyString →
  str_in ":" before = false →
  split_label issuer (before +:+ String ":" after) = Return (before, after).
Proof.
  intros Hi Hb. unfold split_label, split1.
  rewrite str_in_app, cut_first by exact Hb.
  simpl. rewrite orb_true_r.
  destruct Hi as [-> | ->]; reflexivity.
Qed.

(** [split_label] does not raise. *)
Lemma split_label_returns (issuer : option string) (label : string) :
  ∃ i a, split_label issuer label = Return (i, a).
Proof.
  unfold split_label, split1.
  destruct (str_in ":" label) eqn:Hin.
  - destruct (str_in_cut _ _ Hin) as (h & t & ->).
    destruct issuer as [[|c i]|]; simpl; eauto.
  - destruct issuer as [[|c i]|]; simpl; eauto.
Qed.

(** ** parse_otpauth_url *)

Section OtpauthProperties.
Context {L : PyLib}.

Lemma get_first_Some (params : gmap string (list string)) (key s : string) :
  get_first params key = Return (Some s) ↔
  ∃ rest, params !! key = Some (s :: rest).
Proof.
  unfold get_first, getitem. destruct (params !! key) as [[|v vs]|]; simpl.
  - split; [discriminate | intros (rest & Hr); discriminate].
  - split; [intros [= ->]; eauto | intros (rest & [= -> _]); reflexivity].
  - split; [discriminate | intros (rest & Hr); discriminate].
Qed.

Lemma get_first_None (params : gmap string (list string)) (key : string) :
  get_first params key = Return None ↔ params !! key = None.
Proof.
  unfold get_first, getitem. destruct (params !! key) as [[|v vs]|]; simpl;
    split; congruence.
Qed.

(** What the parser returns when every step of the [try] block succeeds. *)
Lemma parse_otpauth_url_builds
    (url : string) (parsed : ParseResult) (params : gmap string (list string))
    (s : string) (io : option string) (i an a d : string) (n : Z) :
  urlparse url = Return parsed →
  scheme parsed = "otpauth" →
  parse_qs (query parsed) = Return params →
  get_first params "secret" = Return (Some s) →
  s ≠ EmptyString →
  get_first params "issuer" = Return io →
  split_label io (unquote (lstrip "/" (path parsed))) = Return (i, an) →
  get_first_or params "algorithm" "SHA1" = Return a →
  get_first_or params "digits" "6" = Return d →
  int d = Return n →
  parse_otpauth_url url
  = Return (Some {| name := otpauth_display_name i an;
                    secret := s;
                    digits := otpauth_digits n;
                    algorithm := otpauth_algorithm (upper a) |}).
Proof.
  intros Hurl Hscheme Hqs Hsecret Hs Hissuer Hlabel Halg Hdig Hint.
  unfold parse_otpauth_url, parse_otpauth_url_try.
  rewrite Hurl, bind_Return, Hscheme. simpl negb. cbv iota.
  rewrite Hqs, bind_Return, Hsecret, bind_Return.
  destruct s as [|c s]; [congruence|].
  rewrite Hissuer, bind_Return, Hlabel, bind_Return.
  rewrite Halg, bind_Return, Hdig, bind_Return, Hint, bind_Return.
  reflexivity.
Qed.

(** Conversely, a returned account comes from a run in which every step
    succeeded. *)
Lemma parse_otpauth_url_inv (url : string) (acc : Account) :
  parse_otpauth_url url = Return (Some acc) →
  ∃ parsed params io i an a d n,
    urlparse url = Return parsed ∧
    scheme parsed = "otpauth" ∧
    parse_qs (query parsed) = Return params ∧
    get_first params "secret" = Return (Some (secret acc)) ∧
    secret acc ≠ EmptyString ∧
    get_first params "issuer" = Return io ∧
    split_label io (unquote (lstrip "/" (path parsed))) = Return (i, an) ∧
    get_first_or params "algorithm" "SHA1" = Return a ∧
    get_first_or params "digits" "6" = Return d ∧
    int d = Return n ∧
    acc = {| name := otpauth_display_name i an;
             secret := secret acc;
             digits := otpauth_digits n;
             algorithm := otpauth_algorithm (upper a) |}.
Proof.
  unfold parse_otpauth_url. rewrite try_except_Some.
  unfold parse_otpauth_url_try. intros Hrun.
  bind_inv Hrun. rename v into parsed.
  destruct (scheme parsed =? "otpauth")%string eqn:Hscheme; simpl in Hrun;
    [|discriminate].
  apply String.eqb_eq in Hscheme.
  bind_inv Hrun. rename v into params.
  bind_inv Hrun. destruct v as [[|c s]|]; try discriminate.
  bind_inv Hrun. rename v into io.
  bind_inv Hrun. destruct v as [i an].
  bind_inv Hrun. rename v into a.
  bind_inv Hrun. rename v into d.
  bind_inv Hrun. rename v into n.
  injection Hrun as <-. simpl.
  exists parsed, params, io, i, an, a, d, n.
  repeat split; try assumption. discriminate.
Qed.

End OtpauthProperties.

(** ** Display names *)

Lemma otpauth_display_name_compose (issuer account_name : string) :
  otpauth_display_name issuer account_name
  = compose_display_name issuer account_name.
Proof. destruct issuer, account_name; reflexivity. Qed.

Lemma migration_display_name_compose (issuer name : string) :
  migration_display_name issuer name = compose_display_name issuer name.
Proof. destruct issuer, name; reflexivity. Qed.

Lemma compose_display_name_nonempty (issuer name : string) :
  compose_display_name issuer name ≠ EmptyString.
Proof. destruct issuer, name; discriminate. Qed.

Lemma truthy_or_empty (s : string) : (if truthy s then s else EmptyString) = s.
Proof. destruct s; reflexivity. Qed.

Lemma otp_account_name (otp : OtpParameters.t) :
  name (otp_account otp)
  = compose_display_name (OtpParameters.issuer otp) (OtpParameters.name otp).
Proof.
  unfold otp_account. simpl. rewrite !truthy_or_empty.
  apply migration_display_name_compose.
Qed.

(** ** parse_migration_url *)

(** The loop appends one account per entry, in order. *)
Lemma otp_loop_map (otps : list OtpParameters.t) (accounts : list Account) :
  otp_loop otps accounts = accounts ++ map otp_account otps.
Proof.
  revert accounts. induction otps as [|otp rest IH]; intros accounts; simpl.
  - rewrite app_nil_r. reflexivity.
  - rewrite IH, <- app_assoc. reflexivity.
Qed.

Section MigrationProperties.
Context {L : PyLib}.

Lemma parse_migration_url_builds
    (url data : string) (rest : list string) (parsed : ParseResult)
    (params : gmap string (list string)) (payload : list byte)
    (migration : MigrationPayload) :
  urlparse url = Return parsed →
  scheme parsed = "otpauth-migration" →
  parse_qs (query parsed) = Return params →
  params !! "data" = Some (data :: rest) →
  urlsafe_b64decode data = Return payload →
  ParseFromString payload = Return migration →
  parse_migration_url url
  = Return (Some (map otp_account (otp_parameters migration))).
Proof.
  intros Hurl Hscheme Hqs Hdata Hb64 Hpb.
  unfold parse_migration_url, parse_migration_url_try.
  rewrite Hurl, bind_Return, Hscheme. simpl negb. cbv iota.
  rewrite Hqs, bind_Return, Hdata, Hb64, bind_Return, Hpb, bind_Return.
  rewrite otp_loop_map. reflexivity.
Qed.

Lemma parse_migration_url_inv (url : string) (accounts : list Account) :
  parse_migration_url url = Return (Some accounts) →
  ∃ parsed params data rest payload migration,
    urlparse url = Return parsed ∧
    scheme parsed = "otpauth-migration" ∧
    parse_qs (query parsed) = Return params ∧
    params !! "data" = Some (data :: rest) ∧
    urlsafe_b64decode data = Return payload ∧
    ParseFromString payload = Return migration ∧
    accounts = map otp_account (otp_parameters migration).
Proof.
  unfold parse_migration_url. rewrite try_except_Some.
  unfold parse_migration_url_try. intros Hrun.
  bind_inv Hrun. rename v into parsed.
  destruct (scheme parsed =? "otpauth-migration")%string eqn:Hscheme;
    simpl in Hrun; [|discriminate].
  apply String.eqb_eq in Hscheme.
  bind_inv Hrun. rename v into params.
  destruct (params !! "data") as [[|data rest]|] eqn:Hdata; try discriminate.
  bind_inv Hrun. rename v into payload.
  bind_inv Hrun. rename v into migration.
  injection Hrun as <-. rewrite otp_loop_map.
  exists parsed, params, data, rest, payload, migration.
  repeat split; assumption.
Qed.

End MigrationProperties.

(** ** Base32 *)

(** Only the empty secret has an empty encoding. *)
Lemma b32encode_empty (s : list byte) : b32encode s = EmptyString ↔ s = [].
Proof.
  split; [|intros ->; reflexivity].
  destruct s as [|a [|b [|c [|d [|e rest]]]]]; [reflexivity|..];
    intros Henc; exfalso; revert Henc;
    unfold b32encode, chars, b32group; simpl; discriminate.
Qed.

Lemma otp_account_secret_empty (otp : OtpParameters.t) :
  secret (otp_account otp) = EmptyString ↔ OtpParameters.secret otp = [].
Proof. unfold otp_account. simpl. apply b32encode_empty. Qed.

(** ** The file system *)

Lemma os_mkdir_keeps (p q : Path) (fs fs' : FS) (r : result unit) (n : node) :
  os_mkdir p fs = (r, fs') → fs !! q = Some n → fs' !! q = Some n.
Proof.
  unfold os_mkdir. intros Hmk Hq.
  destruct p as [|c parent]; [congruence|].
  destruct (node_at parent fs) as [[contents|]|]; try congruence.
  destruct (fs !! (c :: parent)) eqn:Hp; [congruence|].
  injection Hmk as _ <-.
  rewrite lookup_insert_ne; [exact Hq | congruence].
Qed.

Lemma mkdir_exist_ok_keeps (p q : Path) (fs fs' : FS) (r : result unit) (n : node) :
  mkdir_exist_ok p fs = (r, fs') → fs !! q = Some n → fs' !! q = Some n.
Proof.
  unfold mkdir_exist_ok. intros Hmk Hq.
  destruct (os_mkdir p fs) as [[u|e] fs1] eqn:Hos.
  - injection Hmk as _ <-. eapply os_mkdir_keeps; eassumption.
  - destruct e; try (destruct (is_dir p fs)); congruence.
Qed.

(** Creating directories changes no path that exists. *)
Lemma mkdir_keeps (p q : Path) (fs fs' : FS) (r : result unit) (n : node) :
  mkdir p fs = (r, fs') → fs !! q = Some n → fs' !! q = Some n.
Proof.
  revert fs fs' r. induction p as [|c parent IH]; intros fs fs' r Hmk Hq.
  - simpl in Hmk. congruence.
  - simpl in Hmk.
    destruct (node_at parent fs) as [[contents|]|] eqn:Hparent.
    + destruct (is_dir (c :: parent) fs); congruence.
    + destruct (fs !! (c :: parent)) eqn:Hp.
      * destruct (is_dir (c :: parent) fs); congruence.
      * injection Hmk as _ <-.
        rewrite lookup_insert_ne; [exact Hq | congruence].
    + destruct (mkdir parent fs) as [[u|e] fs1] eqn:Hrec.
      * eapply mkdir_exist_ok_keeps; [eassumption|].
        eapply IH; eassumption.
      * injection Hmk as _ <-. eapply IH; eassumption.
Qed.

(** A directory that exists is left as it is. *)
Lemma mkdir_existing_dir (p : Path) (fs : FS) :
  fs_wf fs → is_dir p fs = true → mkdir p fs = (Return tt, fs).
Proof.
  intros Hwf Hdir. destruct p as [|c parent]; [reflexivity|].
  assert (fs !! (c :: parent) = Some Dir) as Hp.
  { unfold is_dir in Hdir. simpl in Hdir.
    destruct (fs !! (c :: parent)) as [[x|]|]; congruence. }
  pose proof (Hwf (c :: parent) Dir Hp) as Hparent. simpl in Hparent.
  unfold is_dir in Hparent.
  destruct (node_at parent fs) as [[x|]|] eqn:Hnode; try discriminate.
  simpl. rewrite Hnode, Hp, Hdir. reflexivity.
Qed.

Lemma open_w_other (p q : Path) (contents : string) (fs fs' : FS) (r : result unit) :
  open_w p contents fs = (r, fs') → q ≠ p → fs' !! q = fs !! q.
Proof.
  unfold open_w. intros Hop Hne.
  destruct p as [|c parent]; [congruence|].
  destruct (node_at parent fs) as [[x|]|]; try congruence.
  destruct (fs !! (c :: parent)) as [[x|]|]; try congruence;
    injection Hop as _ <-; rewrite lookup_insert_ne; congruence.
Qed.

(** * The single-account URL parser: claims *)

Section OtpauthClaims.
Context {L : PyLib}.

(** C9: a secret parameter whose value is the empty string is treated like
    an absent one: in both cases the parser yields no result. *)
Theorem parse_otpauth_url_empty_secret
    (url : string) (parsed : ParseResult) (params : gmap string (list string)) :
  urlparse url = Return parsed →
  parse_qs (query parsed) = Return params →
  (∃ rest, params !! "secret" = Some (EmptyString :: rest))
  ∨ params !! "secret" = None →
  parse_otpauth_url url = Return None.
Proof.
  intros Hurl Hqs Hsecret.
  unfold parse_otpauth_url, parse_otpauth_url_try.
  rewrite Hurl, bind_Return.
  destruct (negb (scheme parsed =? "otpauth")%string); [reflexivity|].
  rewrite Hqs, bind_Return.
  destruct Hsecret as [Hempty | Habsent].
  - apply get_first_Some in Hempty. rewrite Hempty. reflexivity.
  - apply get_first_None in Habsent. rewrite Habsent. reflexivity.
Qed.

(** C10: the secret of a returned account is the first value of the secret
    parameter as [parse_qs] gives it, unchanged. *)
Theorem parse_otpauth_url_secret_verbatim (url : string) (acc : Account) :
  parse_otpauth_url url = Return (Some acc) →
  ∃ parsed params rest,
    urlparse url = Return parsed ∧
    parse_qs (query parsed) = Return params ∧
    params !! "secret" = Some (secret acc :: rest).
Proof.
  intros Hrun.
  destruct (parse_otpauth_url_inv url acc Hrun)
    as (parsed & params & io & i & an & a & d & n
        & Hurl & _ & Hqs & Hsecret & _).
  apply get_first_Some in Hsecret as (rest & Hsecret).
  exists parsed, params, rest. auto.
Qed.

(** The account returned for a label with a colon. *)
Lemma parse_otpauth_url_colon
    (url : string) (parsed : ParseResult) (params : gmap string (list string))
    (before after s a d : string) (srest : list string) (n : Z) :
  urlparse url = Return parsed →
  scheme parsed = "otpauth" →
  parse_qs (query parsed) = Return params →
  unquote (lstrip "/" (path parsed)) = before +:+ ":" +:+ after →
  str_in ":" before = false →
  params !! "secret" = Some (s :: srest) →
  s ≠ EmptyString →
  get_first_or params "algorithm" "SHA1" = Return a →
  get_first_or params "digits" "6" = Return d →
  int d = Return n →
  (∀ issuer irest,
     params !! "issuer" = Some (issuer :: irest) → issuer ≠ EmptyString →
     parse_otpauth_url url
     = Return (Some {| name := compose_display_name issuer after;
                       secret := s;
                       digits := otpauth_digits n;
                       algorithm := otpauth_algorithm (upper a) |}))
  ∧ (params !! "issuer" = None →
     parse_otpauth_url url
     = Return (Some {| name := compose_display_name before after;
                       secret := s;
                       digits := otpauth_digits n;
                       algorithm := otpauth_algorithm (upper a) |})).
Proof.
  intros Hurl Hscheme Hqs Hlabel Hbefore Hsecret Hs Halg Hdig Hint.
  assert (get_first params "secret" = Return (Some s)) as Hfirst
    by (apply get_first_Some; eauto).
  change (before +:+ ":" +:+ after) with (before +:+ String ":" after) in Hlabel.
  split.
  - intros issuer irest Hissuer Hne.
    rewrite <- otpauth_display_name_compose.
    eapply parse_otpauth_url_builds; try eassumption.
    + apply get_first_Some. eauto.
    + rewrite Hlabel. destruct issuer as [|c i]; [congruence|].
      apply split_label_colon_issuer. exact Hbefore.
  - intros Hissuer.
    rewrite <- otpauth_display_name_compose.
    eapply parse_otpauth_url_builds; try eassumption.
    + apply get_first_None. exact Hissuer.
    + rewrite Hlabel. apply split_label_colon_no_issuer; auto.
Qed.

(** The digits of the account returned when the parameter is absent, and
    when it is an integer. *)
Lemma parse_otpauth_url_digits
    (url : string) (parsed : ParseResult) (params : gmap string (list string))
    (s a : string) (srest : list string) (io : option string) :
  urlparse url = Return parsed →
  scheme parsed = "otpauth" →
  parse_qs (query parsed) = Return params →
  params !! "secret" = Some (s :: srest) →
  s ≠ EmptyString →
  get_first params "issuer" = Return io →
  get_first_or params "algorithm" "SHA1" = Return a →
  ∀ d n,
    get_first_or params "digits" "6" = Return d →
    int d = Return n →
    ∃ acc, parse_otpauth_url url = Return (Some acc)
           ∧ digits acc = otpauth_digits n.
Proof.
  intros Hurl Hscheme Hqs Hsecret Hs Hissuer Halg d n Hdig Hint.
  destruct (split_label_returns io (unquote (lstrip "/" (path parsed))))
    as (i & an & Hlabel).
  eexists. split.
  - eapply parse_otpauth_url_builds; try eassumption.
    apply get_first_Some. eauto.
  - reflexivity.
Qed.

(** C6 (amended): the digits parameter defaults to "6" when absent, and an
    integer value is validated against 6, 7 and 8: for a URL with a valid
    secret the parser yields an account with digits 6 when the parameter is
    absent or an integer outside that set, and with the given digits when
    it is 6, 7 or 8. *)
Theorem parse_otpauth_url_digits_default
    (url : string) (parsed : ParseResult) (params : gmap string (list string))
    (s a : string) (srest : list string) (io : option string) :
  urlparse url = Return parsed →
  scheme parsed = "otpauth" →
  parse_qs (query parsed) = Return params →
  params !! "secret" = Some (s :: srest) →
  s ≠ EmptyString →
  get_first params "issuer" = Return io →
  get_first_or params "algorithm" "SHA1" = Return a →
  (params !! "digits" = None → int "6" = Return 6 →
   ∃ acc, parse_otpauth_url url = Return (Some acc) ∧ digits acc = 6)
  ∧ (∀ d drest n,
       params !! "digits" = Some (d :: drest) → int d = Return n →
       ∃ acc, parse_otpauth_url url = Return (Some acc)
              ∧ (n ≠ 6 → n ≠ 7 → n ≠ 8 → digits acc = 6)
              ∧ (n = 6 ∨ n = 7 ∨ n = 8 → digits acc = n)).
Proof.
  intros Hurl Hscheme Hqs Hsecret Hs Hissuer Halg.
  pose proof (parse_otpauth_url_digits url parsed params s a srest io
                Hurl Hscheme Hqs Hsecret Hs Hissuer Halg) as Hdigits.
  split.
  - intros Habsent Hsix.
    destruct (Hdigits "6" 6) as (acc & Hrun & Hd); [|exact Hsix|].
    + unfold get_first_or. rewrite Habsent. reflexivity.
    + exists acc. split; [exact Hrun | exact Hd].
  - intros d drest n Hpresent Hint.
    destruct (Hdigits d n) as (acc & Hrun & Hd); [|exact Hint|].
    + unfold get_first_or. rewrite Hpresent. reflexivity.
    + exists acc. split; [exact Hrun|]. rewrite Hd. unfold otpauth_digits.
      split.
      * intros H6 H7 H8. simpl.
        destruct (Z.eqb_spec n 6), (Z.eqb_spec n 7), (Z.eqb_spec n 8);
          simpl; congruence.
      * intros [-> | [-> | ->]]; reflexivity.
Qed.

End OtpauthClaims.

(** ** The handler and the console *)

Section ConsoleProperties.
Context {L : PyLib}.
Variable print : string → result unit.
Variable str_e : string → exn → string.

(** On a console that prints every text the handlers return None, and the
    functions are [parse_otpauth_url] and [parse_migration_url]. *)
Lemma parse_otpauth_url_quiet_console (url : string) :
  (∀ s, print s = Return tt) →
  Console.parse_otpauth_url print str_e url = parse_otpauth_url url.
Proof.
  intros Hprint. unfold Console.parse_otpauth_url, parse_otpauth_url, try_except.
  destruct (parse_otpauth_url_try url) as [r|e]; [reflexivity|].
  rewrite Hprint. reflexivity.
Qed.

Lemma parse_migration_url_quiet_console (url : string) :
  (∀ s, print s = Return tt) →
  Console.parse_migration_url print str_e url = parse_migration_url url.
Proof.
  intros Hprint.
  unfold Console.parse_migration_url, parse_migration_url, try_except.
  destruct (parse_migration_url_try url) as [r|e]; [reflexivity|].
  rewrite Hprint. reflexivity.
Qed.


(** An account, or a list of accounts, comes from the [try] block: the
    console has no part in it. *)
Lemma parse_otpauth_url_console_some (url : string) (acc : Account) :
  Console.parse_otpauth_url print str_e url = Return (Some acc)
  ↔ parse_otpauth_url url = Return (Some acc).
Proof.
  unfold Console.parse_otpauth_url, parse_otpauth_url, try_except.
  destruct (parse_otpauth_url_try url) as [r|e]; [reflexivity|].
  destruct (print _); split; discriminate.
Qed.

Lemma parse_migration_url_console_some
    (url : string) (accounts : list Account) :
  Console.parse_migration_url print str_e url = Return (Some accounts)
  ↔ parse_migration_url url = Return (Some accounts).
Proof.
  unfold Console.parse_migration_url, parse_migration_url, try_except.
  destruct (parse_migration_url_try url) as [r|e]; [reflexivity|].
  destruct (print _); split; discriminate.
Qed.

End ConsoleProperties.



(** Without the surrogate the same text is printed and the parser returns
    None: the host U+2100 alone. *)
Lemma parse_otpauth_url_handler_prints :
  Console.parse_otpauth_url (L := Console.lib) Console.print_utf8
    (fun _ _ => Console.checknetloc_text
                  (string_of_list_byte [xe2; x84; x80]))
    ("otpauth://" +:+ string_of_list_byte [xe2; x84; x80] +:+ "/x?secret=A")
  = Return None.
Proof. vm_compute. reflexivity. Qed.

(** C3: when the label has a colon, an issuer parameter is the issuer and
    the text after the first colon is the account name; without an issuer
    parameter the text before the first colon is the issuer and the text
    after it the account name.  The URL of the specification yields the name
    "MCB (Acme)" and 8 digits. *)
Theorem otpauth_label_colon_rule :
  (∀ (L : PyLib) (url : string) (parsed : ParseResult)
     (params : gmap string (list string)) (before after s a d : string)
     (srest : list string) (n : Z),
     urlparse url = Return parsed →
     scheme parsed = "otpauth" →
     parse_qs (query parsed) = Return params →
     unquote (lstrip "/" (path parsed)) = before +:+ ":" +:+ after →
     str_in ":" before = false →
     params !! "secret" = Some (s :: srest) →
     s ≠ EmptyString →
     get_first_or params "algorithm" "SHA1" = Return a →
     get_first_or params "digits" "6" = Return d →
     int d = Return n →
     (∀ issuer irest,
        params !! "issuer" = Some (issuer :: irest) → issuer ≠ EmptyString →
        parse_otpauth_url url
        = Return (Some {| name := compose_display_name issuer after;
                          secret := s;
                          digits := otpauth_digits n;
                          algorithm := otpauth_algorithm (upper a) |}))
     ∧ (params !! "issuer" = None →
        parse_otpauth_url url
        = Return (Some {| name := compose_display_name before after;
                          secret := s;
                          digits := otpauth_digits n;
                          algorithm := otpauth_algorithm (upper a) |})))
  ∧ parse_otpauth_url (L := CPython.lib)
      "otpauth://totp/MCB:Acme?secret=ABCDEF&issuer=MCB&digits=8"
    = Return (Some {| name := "MCB (Acme)";
                      secret := "ABCDEF";
                      digits := 8;
                      algorithm := "SHA1" |}).
Proof.
  split.
  - intros. eapply parse_otpauth_url_colon; eassumption.
  - vm_compute. reflexivity.
Qed.

(** The rule at a URL without an issuer parameter: the label alone gives
    the issuer and the account name. *)
Lemma otpauth_label_colon_rule_witness :
  parse_otpauth_url (L := CPython.lib)
    "otpauth://totp/Example:alice@example.com?secret=JBSWY3DPEHPK3PXP&digits=7"
  = Return (Some {| name := "Example (alice@example.com)";
                    secret := "JBSWY3DPEHPK3PXP";
                    digits := 7;
                    algorithm := "SHA1" |}).
Proof.
  refine (proj2 (proj1 otpauth_label_colon_rule CPython.lib
            "otpauth://totp/Example:alice@example.com?secret=JBSWY3DPEHPK3PXP&digits=7"
            {| scheme := "otpauth"; netloc := "totp";
               path := "/Example:alice@example.com"; params := "";
               query := "secret=JBSWY3DPEHPK3PXP&digits=7"; fragment := "" |}
            (<["secret" := ["JBSWY3DPEHPK3PXP"]]> (<["digits" := ["7"]]> ∅))
            "Example" "alice@example.com" "JBSWY3DPEHPK3PXP" "SHA1" "7" [] 7
            _ _ _ _ _ _ _ _ _ _) _);
    try (vm_compute; reflexivity).
  discriminate.
Defined.

(** A URL with [secret=]: [parse_qs] drops the blank value, and the parser
    yields no result. *)
Lemma parse_otpauth_url_empty_secret_witness :
  parse_otpauth_url (L := CPython.lib)
    "otpauth://totp/Example:alice?secret=&issuer=Example"
  = Return None.
Proof.
  apply (parse_otpauth_url_empty_secret (L := CPython.lib)
           "otpauth://totp/Example:alice?secret=&issuer=Example"
           {| scheme := "otpauth"; netloc := "totp"; path := "/Example:alice";
              params := ""; query := "secret=&issuer=Example"; fragment := "" |}
           (<["issuer" := ["Example"]]> ∅)).
  - vm_compute. reflexivity.
  - vm_compute. reflexivity.
  - right. vm_compute. reflexivity.
Defined.

(** A secret that is not Base32 text, in mixed case, comes out as it went
    in. *)
Lemma parse_otpauth_url_secret_verbatim_witness :
  ∃ parsed params rest,
    urlparse (PyLib := CPython.lib)
      "otpauth://totp/Example?secret=jbswY3dp-0189!" = Return parsed ∧
    parse_qs (PyLib := CPython.lib) (query parsed) = Return params ∧
    params !! "secret" = Some ("jbswY3dp-0189!" :: rest).
Proof.
  apply (parse_otpauth_url_secret_verbatim (L := CPython.lib)
           "otpauth://totp/Example?secret=jbswY3dp-0189!"
           {| name := "Example"; secret := "jbswY3dp-0189!";
              digits := 6; algorithm := "SHA1" |}).
  vm_compute. reflexivity.
Defined.

(** Digits 9 is replaced by 6, digits 7 is kept, and an absent parameter
    gives 6. *)
Lemma parse_otpauth_url_digits_default_witness :
  (∃ acc, parse_otpauth_url (L := CPython.lib)
            "otpauth://totp/Example?secret=JBSWY3DPEHPK3PXP&digits=9"
          = Return (Some acc)
          ∧ (9 ≠ 6 → 9 ≠ 7 → 9 ≠ 8 → digits acc = 6)
          ∧ (9 = 6 ∨ 9 = 7 ∨ 9 = 8 → digits acc = 9))
  ∧ (∃ acc, parse_otpauth_url (L := CPython.lib)
              "otpauth://totp/Example?secret=JBSWY3DPEHPK3PXP"
            = Return (Some acc) ∧ digits acc = 6).
Proof.
  split.
  - refine (proj2 (parse_otpauth_url_digits_default (L := CPython.lib)
              "otpauth://totp/Example?secret=JBSWY3DPEHPK3PXP&digits=9"
              {| scheme := "otpauth"; netloc := "totp"; path := "/Example";
                 params := ""; query := "secret=JBSWY3DPEHPK3PXP&digits=9";
                 fragment := "" |}
              (<["secret" := ["JBSWY3DPEHPK3PXP"]]> (<["digits" := ["9"]]> ∅))
              "JBSWY3DPEHPK3PXP" "SHA1" [] None _ _ _ _ _ _ _) "9" [] 9 _ _);
      try (vm_compute; reflexivity).
    discriminate.
  - refine (proj1 (parse_otpauth_url_digits_default (L := CPython.lib)
              "otpauth://totp/Example?secret=JBSWY3DPEHPK3PXP"
              {| scheme := "otpauth"; netloc := "totp"; path := "/Example";
                 params := ""; query := "secret=JBSWY3DPEHPK3PXP";
                 fragment := "" |}
              (<["secret" := ["JBSWY3DPEHPK3PXP"]]> ∅)
              "JBSWY3DPEHPK3PXP" "SHA1" [] None _ _ _ _ _ _ _) _ _);
      try (vm_compute; reflexivity).
    discriminate.
Defined.

(** C6, as stated, fails: with a valid secret and [digits=abc], [int]
    raises [ValueError] inside the [try] block and the parser yields no
    result instead of an account with digits 6. *)
Lemma parse_otpauth_url_digits_not_numeric :
  (∃ parsed params,
     urlparse (PyLib := CPython.lib) digits_abc_url = Return parsed ∧
     scheme parsed = "otpauth" ∧
     parse_qs (PyLib := CPython.lib) (query parsed) = Return params ∧
     params !! "secret" = Some ["JBSWY3DPEHPK3PXP"] ∧
     params !! "digits" = Some ["abc"]) ∧
  int (PyLib := CPython.lib) "abc" = Raise ValueError ∧
  parse_otpauth_url_try (L := CPython.lib) digits_abc_url = Raise ValueError ∧
  parse_otpauth_url (L := CPython.lib) digits_abc_url = Return None ∧
  ¬ ∃ acc, parse_otpauth_url (L := CPython.lib) digits_abc_url
           = Return (Some acc)
           ∧ digits acc = 6.
Proof.
  split; [|split; [|split; [|split]]].
  - exists {| scheme := "otpauth"; netloc := "totp"; path := "/Example";
              params := ""; query := "secret=JBSWY3DPEHPK3PXP&digits=abc";
              fragment := "" |},
      (<["secret" := ["JBSWY3DPEHPK3PXP"]]> (<["digits" := ["abc"]]> ∅)).
    repeat split; vm_compute; reflexivity.
  - vm_compute. reflexivity.
  - vm_compute. reflexivity.
  - vm_compute. reflexivity.
  - intros (acc & Hrun & _).
    assert (parse_otpauth_url (L := CPython.lib) digits_abc_url = Return None)
      as Hnone
      by (vm_compute; reflexivity).
    congruence.
Qed.

(** * Display names: claim *)

(** C4: the two parsers compose the display name by one rule, the rule of
    section 4.4: both parts present, only the issuer, only the name, neither
    ("Unknown").  The name of a returned account is therefore never
    empty. *)
Theorem display_name_rule :
  (∀ issuer name : string,
     otpauth_display_name issuer name = compose_display_name issuer name
     ∧ migration_display_name issuer name = compose_display_name issuer name
     ∧ compose_display_name issuer name ≠ EmptyString)
  ∧ (∀ (L : PyLib) (url : string) (acc : Account),
       parse_otpauth_url url = Return (Some acc) →
       ∃ parsed params issuer_param issuer account_name,
         urlparse url = Return parsed ∧
         parse_qs (query parsed) = Return params ∧
         get_first params "issuer" = Return issuer_param ∧
         split_label issuer_param (unquote (lstrip "/" (path parsed)))
         = Return (issuer, account_name) ∧
         name acc = compose_display_name issuer account_name ∧
         name acc ≠ EmptyString)
  ∧ (∀ (L : PyLib) (url : string) (accounts : list Account),
       parse_migration_url url = Return (Some accounts) →
       ∃ payload migration,
         ParseFromString payload = Return migration ∧
         map name accounts
         = map (fun otp => compose_display_name (OtpParameters.issuer otp)
                             (OtpParameters.name otp))
             (otp_parameters migration) ∧
         Forall (fun acc => name acc ≠ EmptyString) accounts).
Proof.
  split; [|split].
  - intros issuer name. split; [|split].
    + apply otpauth_display_name_compose.
    + apply migration_display_name_compose.
    + apply compose_display_name_nonempty.
  - intros L url acc Hrun.
    destruct (parse_otpauth_url_inv url acc Hrun)
      as (parsed & params & io & i & an & a & d & n
          & Hurl & _ & Hqs & _ & _ & Hissuer & Hlabel & _ & _ & _ & Hacc).
    exists parsed, params, io, i, an.
    assert (name acc = compose_display_name i an) as Hname.
    { rewrite Hacc. simpl. apply otpauth_display_name_compose. }
    repeat split; try assumption.
    rewrite Hname. apply compose_display_name_nonempty.
  - intros L url accounts Hrun.
    destruct (parse_migration_url_inv url accounts Hrun)
      as (parsed & params & data & rest & payload & migration
          & _ & _ & _ & _ & _ & Hpb & ->).
    exists payload, migration. split; [exact Hpb|]. split.
    + rewrite map_map. apply map_ext. intros otp. apply otp_account_name.
    + apply Forall_map, Forall_forall. intros otp _.
      rewrite otp_account_name. apply compose_display_name_nonempty.
Qed.

(** The rule on a URL without label and issuer, and on a payload with an
    entry that has only a name. *)
Lemma display_name_rule_witness :
  (∃ acc, parse_otpauth_url (L := CPython.lib) "otpauth://totp/?secret=JBSWY3DPEHPK3PXP"
          = Return (Some acc)
          ∧ name acc = "Unknown" ∧ name acc ≠ EmptyString)
  ∧ Forall (fun acc => name acc ≠ EmptyString)
      [{| name := "alice"; secret := "74======"; digits := 6; algorithm := "SHA1" |}].
Proof.
  destruct display_name_rule as (_ & Hurl & Hmigration). split.
  - destruct (Hurl CPython.lib "otpauth://totp/?secret=JBSWY3DPEHPK3PXP"
                {| name := "Unknown"; secret := "JBSWY3DPEHPK3PXP";
                   digits := 6; algorithm := "SHA1" |})
      as (parsed & params & io & i & an & _ & _ & _ & _ & _ & Hne).
    + vm_compute. reflexivity.
    + eexists. split; [vm_compute; reflexivity|]. split; [reflexivity | exact Hne].
  - destruct (Hmigration CPython.lib "otpauth-migration://offline?data=CgwKAf8SBWFsaWNlKAE="
                [{| name := "alice"; secret := "74======"; digits := 6;
                    algorithm := "SHA1" |}])
      as (payload & migration & _ & _ & Hall).
    + vm_compute. reflexivity.
    + exact Hall.
Defined.

(** * The migration path: claims *)

(** No entry of the payload is dropped: the accounts are as many as the
    entries, and an account has an empty secret exactly when its entry
    has. *)
Lemma parse_migration_url_keeps_every_entry
    {L : PyLib} (url : string) (accounts : list Account) :
  parse_migration_url url = Return (Some accounts) →
  ∃ payload migration,
    ParseFromString payload = Return migration ∧
    length accounts = length (otp_parameters migration) ∧
    Forall2 (fun otp acc =>
               secret acc = EmptyString ↔ OtpParameters.secret otp = [])
      (otp_parameters migration) accounts.
Proof.
  intros Hrun.
  destruct (parse_migration_url_inv url accounts Hrun)
    as (parsed & params & data & rest & payload & migration
        & _ & _ & _ & _ & _ & Hpb & ->).
  exists payload, migration. split; [exact Hpb|]. split.
  - apply length_map.
  - clear. induction (otp_parameters migration) as [|otp otps IH]; simpl.
    + constructor.
    + constructor; [apply otp_account_secret_empty | exact IH].
Qed.

(** Line 217 takes the digits field as a digit count: 6, 7 and 8 are kept
    and every other integer gives 6, so the codes 0, 1 and 2 of the export
    format all give 6. *)
Lemma migration_digits_literal :
  (∀ otp : OtpParameters.t,
     digits (otp_account otp) = migration_digits (OtpParameters.digits otp))
  ∧ (∀ code : Z,
       ((code = 6 ∨ code = 7 ∨ code = 8) ∧ migration_digits code = code)
       ∨ (code ≠ 6 ∧ code ≠ 7 ∧ code ≠ 8 ∧ migration_digits code = 6))
  ∧ migration_digits 0 = 6
  ∧ migration_digits 1 = 6
  ∧ migration_digits 2 = 6.
Proof.
  split; [reflexivity|]. split; [|repeat split; reflexivity].
  intros code. unfold migration_digits, int_in_list. simpl.
  destruct (Z.eqb_spec code 6) as [->|H6]; [left; auto|].
  destruct (Z.eqb_spec code 7) as [->|H7]; [left; auto|].
  destruct (Z.eqb_spec code 8) as [->|H8]; [left; auto|].
  right. auto.
Qed.

(** C1: the claim fails on the code.  The payload holds one entry whose
    algorithm and digits codes are both 2.  The algorithm code is mapped
    (SHA256); the digits code is compared with the counts 6, 7 and 8 and
    gives 6 digits, not 8. *)
Theorem migration_digits_code_2 :
  migration_digits 2 ≠ 8
  ∧ CPython.urlsafe_b64decode
      "ChwKAgABEghFcmljbGVpbhoGR2l0SHViIAIoAjACEAEYASAAKIUB"
    = Return eight_digits_payload
  ∧ (∃ otp,
       CPython.ParseFromString eight_digits_payload
       = Return {| otp_parameters := [otp]; version := 1; batch_size := 1;
                   batch_index := 0; batch_id := 133 |}
       ∧ OtpParameters.digits otp = 2)
  ∧ parse_migration_url (L := CPython.lib) eight_digits_url
    = Return (Some [{| name := "GitHub (Ericlein)";
                       secret := "AAAQ====";
                       digits := 6;
                       algorithm := "SHA256" |}]).
Proof.
  split; [discriminate|]. split; [vm_compute; reflexivity|]. split.
  - eexists. split; [vm_compute; reflexivity | reflexivity].
  - vm_compute. reflexivity.
Qed.

(** C2: the claim fails on the code.  The payload 0A 02 0A 00 holds one
    entry whose secret is present and empty, the payload 0A 00 one entry
    without a secret; for each the parser emits an account, with the empty
    secret. *)
Theorem parse_migration_url_emits_empty_secret :
  CPython.urlsafe_b64decode "CgIKAA==" = Return [x0a; x02; x0a; x00]
  ∧ parse_migration_url (L := CPython.lib)
      "otpauth-migration://offline?data=CgIKAA=="
    = Return (Some [{| name := "Unknown";
                       secret := "";
                       digits := 6;
                       algorithm := "SHA1" |}])
  ∧ CPython.urlsafe_b64decode "CgA=" = Return [x0a; x00]
  ∧ parse_migration_url (L := CPython.lib)
      "otpauth-migration://offline?data=CgA="
    = Return (Some [{| name := "Unknown";
                       secret := "";
                       digits := 6;
                       algorithm := "SHA1" |}]).
Proof. repeat split; vm_compute; reflexivity. Qed.

(** C5 (amended): for a migration URL whose payload holds the two entries
    of the specification, the parser returns two accounts in that order,
    with the names "GitHub (Ericlein)" and "Discord" and the Base32 secrets
    "AAAQ====" and "74======". *)
Theorem parse_migration_url_two_entries
    {L : PyLib} (url data : string) (rest : list string) (parsed : ParseResult)
    (params : gmap string (list string)) (payload : list byte)
    (migration : MigrationPayload) (e1 e2 : OtpParameters.t) :
  urlparse url = Return parsed →
  scheme parsed = "otpauth-migration" →
  parse_qs (query parsed) = Return params →
  params !! "data" = Some (data :: rest) →
  urlsafe_b64decode data = Return payload →
  ParseFromString payload = Return migration →
  otp_parameters migration = [e1; e2] →
  OtpParameters.secret e1 = [x00; x01] →
  OtpParameters.issuer e1 = "GitHub" →
  OtpParameters.name e1 = "Ericlein" →
  OtpParameters.secret e2 = [xff] →
  OtpParameters.issuer e2 = "Discord" →
  OtpParameters.name e2 = EmptyString →
  ∃ a1 a2,
    parse_migration_url url = Return (Some [a1; a2]) ∧
    name a1 = "GitHub (Ericlein)" ∧ secret a1 = "AAAQ====" ∧
    name a2 = "Discord" ∧ secret a2 = "74======".
Proof.
  intros Hurl Hscheme Hqs Hdata Hb64 Hpb Hotps Hs1 Hi1 Hn1 Hs2 Hi2 Hn2.
  exists (otp_account e1), (otp_account e2). split.
  - erewrite parse_migration_url_builds by eassumption.
    rewrite Hotps. reflexivity.
  - rewrite !otp_account_name, Hi1, Hn1, Hi2, Hn2.
    unfold otp_account. simpl. rewrite Hs1, Hs2.
    repeat split; vm_compute; reflexivity.
Qed.

Lemma parse_migration_url_two_entries_witness :
  ∃ a1 a2,
    parse_migration_url (L := CPython.lib) two_entries_url
    = Return (Some [a1; a2]) ∧
    name a1 = "GitHub (Ericlein)" ∧ secret a1 = "AAAQ====" ∧
    name a2 = "Discord" ∧ secret a2 = "74======".
Proof.
  refine (parse_migration_url_two_entries (L := CPython.lib)
            two_entries_url
            "ChYKAgABEghFcmljbGVpbhoGR2l0SHViCgwKAf8aB0Rpc2NvcmQ=" []
            {| scheme := "otpauth-migration"; netloc := "offline"; path := "";
               params := "";
               query := "data=ChYKAgABEghFcmljbGVpbhoGR2l0SHViCgwKAf8aB0Rpc2NvcmQ%3D";
               fragment := "" |}
            (<["data" := ["ChYKAgABEghFcmljbGVpbhoGR2l0SHViCgwKAf8aB0Rpc2NvcmQ="]]> ∅)
            two_entries_payload
            {| otp_parameters := two_entries; version := 0; batch_size := 0;
               batch_index := 0; batch_id := 0 |}
            (nth 0 two_entries (otp_default)) (nth 1 two_entries (otp_default))
            _ _ _ _ _ _ _ _ _ _ _ _ _);
    vm_compute; reflexivity.
Defined.

(** C5, as stated, fails: the secrets the parser returns for the two
    entries are "AAAQ====" and "74======"; they differ from "AAE=" and
    "7A======" in more than padding. *)
Lemma two_entries_secrets_not_as_stated :
  CPython.urlsafe_b64decode
    "ChYKAgABEghFcmljbGVpbhoGR2l0SHViCgwKAf8aB0Rpc2NvcmQ="
  = Return two_entries_payload
  ∧ CPython.ParseFromString two_entries_payload
    = Return {| otp_parameters := two_entries; version := 0; batch_size := 0;
                batch_index := 0; batch_id := 0 |}
  ∧ ∃ a1 a2,
      parse_migration_url (L := CPython.lib) two_entries_url
      = Return (Some [a1; a2]) ∧
      secret a1 = "AAAQ====" ∧ secret a2 = "74======" ∧
      ¬ b32_equivalent (secret a1) "AAE=" ∧
      ¬ b32_equivalent (secret a2) "7A======".
Proof.
  split; [vm_compute; reflexivity|]. split; [vm_compute; reflexivity|].
  eexists _, _. split; [vm_compute; reflexivity|].
  repeat split; try reflexivity; unfold b32_equivalent; vm_compute; discriminate.
Qed.

(** * The output writer: claim *)

Lemma csharp_accounts_copy (accounts : list Account) :
  map (fun acc => {| name := name acc;
                     secret := secret acc;
                     digits := digits acc;
                     algorithm := algorithm acc |}) accounts
  = accounts.
Proof.
  induction accounts as [|[n s d a] rest IH]; simpl; [reflexivity|].
  rewrite IH. reflexivity.
Qed.

Section WriterClaims.
Context {L : PyLib}.
Variable PROJECT_ROOT : list string.

Lemma updated_accounts_not_canonical :
  joinpath (CSHARP_TRAY_DIR PROJECT_ROOT) "updated_accounts.json"
  ≠ CSHARP_ACCOUNTS_JSON PROJECT_ROOT.
Proof. unfold CSHARP_ACCOUNTS_JSON, joinpath. congruence. Qed.

Lemma csharp_file_occupied (fs : gmap (list string) node) :
  path_exists (CSHARP_ACCOUNTS_JSON PROJECT_ROOT) fs = true →
  csharp_file PROJECT_ROOT fs
  = joinpath (CSHARP_TRAY_DIR PROJECT_ROOT) "updated_accounts.json".
Proof. unfold csharp_file. intros ->. reflexivity. Qed.

(** The writer changes no path that exists, apart from the file it
    writes. *)
Lemma create_accounts_json_frame
    (accounts : list Account) (fs fs' : gmap (list string) node)
    (r : result bool) (p : list string) (n : node) :
  create_accounts_json PROJECT_ROOT accounts fs = (r, fs') →
  p ≠ csharp_file PROJECT_ROOT fs →
  fs !! p = Some n → fs' !! p = Some n.
Proof.
  unfold create_accounts_json. intros Hrun Hp Hn.
  destruct accounts as [|acc rest]; [congruence|].
  destruct (mkdir (CSHARP_TRAY_DIR PROJECT_ROOT) fs) as [[u|e] fs1] eqn:Hmk.
  - pose proof (mkdir_keeps _ p _ _ _ n Hmk Hn) as Hn1.
    destruct (open_w (csharp_file PROJECT_ROOT fs) _ fs1) as [[u'|e] fs2] eqn:Hop;
      injection Hrun as _ <-;
      rewrite (open_w_other _ p _ _ _ _ Hop Hp); exact Hn1.
  - injection Hrun as _ <-. eapply mkdir_keeps; eassumption.
Qed.

(** C7 (amended): when accounts.json exists, the writer does not overwrite
    it: the file it writes is updated_accounts.json, a different path; the
    contents of accounts.json, and every other path than
    updated_accounts.json, stay as they were.  In a well-formed file system
    where updated_accounts.json is not a directory, the write succeeds. *)
Theorem create_accounts_json_keeps_canonical
    (accounts : list Account) (fs fs' : gmap (list string) node)
    (r : result bool) :
  path_exists (CSHARP_ACCOUNTS_JSON PROJECT_ROOT) fs = true →
  create_accounts_json PROJECT_ROOT accounts fs = (r, fs') →
  csharp_file PROJECT_ROOT fs
  = joinpath (CSHARP_TRAY_DIR PROJECT_ROOT) "updated_accounts.json"
  ∧ csharp_file PROJECT_ROOT fs ≠ CSHARP_ACCOUNTS_JSON PROJECT_ROOT
  ∧ fs' !! CSHARP_ACCOUNTS_JSON PROJECT_ROOT
    = fs !! CSHARP_ACCOUNTS_JSON PROJECT_ROOT
  ∧ (∀ p n, p ≠ csharp_file PROJECT_ROOT fs →
            fs !! p = Some n → fs' !! p = Some n)
  ∧ (accounts ≠ [] → fs_wf fs →
     fs !! csharp_file PROJECT_ROOT fs ≠ Some Dir →
     r = Return true
     ∧ fs' = <[csharp_file PROJECT_ROOT fs := File (json_dumps accounts)]> fs).
Proof.
  intros Hexists Hrun.
  pose proof (csharp_file_occupied fs Hexists) as Hfile.
  pose proof updated_accounts_not_canonical as Hne.
  assert (∃ n, fs !! CSHARP_ACCOUNTS_JSON PROJECT_ROOT = Some n) as (n & Hn).
  { unfold path_exists in Hexists. simpl in Hexists.
    destruct (fs !! CSHARP_ACCOUNTS_JSON PROJECT_ROOT); [eauto | discriminate]. }
  split; [exact Hfile|]. split; [rewrite Hfile; exact Hne|].
  split; [|split].
  - rewrite Hn. eapply create_accounts_json_frame; [exact Hrun | | exact Hn].
    rewrite Hfile. congruence.
  - intros p m Hp Hm. eapply create_accounts_json_frame; eassumption.
  - intros Haccounts Hwf Hnotdir.
    assert (is_dir (CSHARP_TRAY_DIR PROJECT_ROOT) fs = true) as Hdir
      by exact (Hwf _ _ Hn).
    unfold create_accounts_json in Hrun.
    destruct accounts as [|acc rest]; [congruence|].
    rewrite csharp_accounts_copy, (mkdir_existing_dir _ _ Hwf Hdir) in Hrun.
    rewrite Hfile in Hrun, Hnotdir |- *.
    unfold open_w, joinpath in Hrun. unfold joinpath in Hnotdir.
    unfold is_dir in Hdir.
    destruct (node_at (CSHARP_TRAY_DIR PROJECT_ROOT) fs) as [[x|]|];
      try discriminate.
    destruct (fs !! ("updated_accounts.json" :: CSHARP_TRAY_DIR PROJECT_ROOT))
      as [[x|]|]; try congruence; injection Hrun as <- <-; auto.
Qed.

End WriterClaims.

Lemma example_fs_wf : fs_wf example_fs.
Proof. unfold fs_wf. apply (bool_decide_unpack _). vm_compute. reflexivity. Qed.

(** A write next to the existing accounts.json goes to
    updated_accounts.json and leaves accounts.json as it was. *)
Lemma create_accounts_json_keeps_canonical_witness :
  ∃ fs',
    create_accounts_json (L := CPython.lib) example_root [example_account_1]
      example_fs
    = (Return true, fs')
    ∧ fs' !! CSHARP_ACCOUNTS_JSON example_root = Some (File "{}")
    ∧ fs' = <[joinpath (CSHARP_TRAY_DIR example_root) "updated_accounts.json"
              := File (CPython.json_dumps [example_account_1])]> example_fs.
Proof.
  destruct (create_accounts_json (L := CPython.lib) example_root
              [example_account_1] example_fs) as [r fs'] eqn:Hrun.
  destruct (create_accounts_json_keeps_canonical (L := CPython.lib)
              example_root [example_account_1] example_fs fs' r)
    as (Hfile & _ & Hcanonical & _ & Hsuccess).
  - vm_compute. reflexivity.
  - exact Hrun.
  - destruct Hsuccess as [-> ->].
    + discriminate.
    + exact example_fs_wf.
    + vm_compute. discriminate.
    + exists (<[csharp_file example_root example_fs
                := File (json_dumps (PyLib := CPython.lib) [example_account_1])]>
                example_fs).
      split; [reflexivity|]. split; [|rewrite Hfile; reflexivity].
      rewrite Hfile. vm_compute. reflexivity.
Defined.

(** C7, as stated, fails: next to an existing accounts.json, a first write
    creates updated_accounts.json; a second write chooses the same path,
    now occupied, and replaces the contents the first write left there. *)
Lemma create_accounts_json_second_write_overwrites :
  path_exists (CSHARP_ACCOUNTS_JSON example_root) example_fs = true
  ∧ ∃ fs1 fs2,
      create_accounts_json (L := CPython.lib) example_root [example_account_1]
        example_fs = (Return true, fs1)
      ∧ csharp_file example_root example_fs = example_updated
      ∧ fs1 !! example_updated = Some (File (CPython.json_dumps [example_account_1]))
      ∧ create_accounts_json (L := CPython.lib) example_root [example_account_2]
          fs1 = (Return true, fs2)
      ∧ csharp_file example_root fs1 = example_updated
      ∧ fs2 !! example_updated = Some (File (CPython.json_dumps [example_account_2]))
      ∧ CPython.json_dumps [example_account_1]
        ≠ CPython.json_dumps [example_account_2].
Proof.
  split; [vm_compute; reflexivity|].
  exists (<[example_updated := File (CPython.json_dumps [example_account_1])]> example_fs),
         (<[example_updated := File (CPython.json_dumps [example_account_2])]> example_fs).
  repeat split; try (vm_compute; reflexivity).
  vm_compute. discriminate.
Qed.

(** * The reference instance: properties *)

Module CPythonProperties.
Import CPython.

(** ** parse_qs never gives a blank value *)

Lemma unquote_nonempty (s : string) : s ≠ EmptyString → unquote s ≠ EmptyString.
Proof.
  destruct s as [|c rest]; [congruence|]. intros _. simpl.
  destruct (Ascii.eqb c "%"); [|discriminate].
  destruct rest as [|h [|l r]]; try discriminate.
  destruct (hexval h), (hexval l); discriminate.
Qed.

Lemma map_str_nonempty (f : ascii → ascii) (s : string) :
  s ≠ EmptyString → map_str f s ≠ EmptyString.
Proof. destruct s; [congruence | discriminate]. Qed.

Lemma parse_qsl_values (qs : string) :
  Forall (fun nv : string * string => snd nv ≠ EmptyString) (parse_qsl qs).
Proof.
  unfold parse_qsl. induction (split "&" qs) as [|name_value rest IH]; simpl.
  - constructor.
  - apply Forall_app. split; [|exact IH].
    destruct (cut "=" name_value) as [[n [|c v]]|]; constructor; [|constructor].
    cbn [snd]. apply unquote_nonempty, map_str_nonempty. discriminate.
Qed.

(** Every key of the dictionary has at least one value, and no value is
    the empty string. *)
Lemma parse_qs_values (qs : string) (parsed_result : gmap string (list string))
    (key : string) (values : list string) :
  parse_qs qs = Return parsed_result →
  parsed_result !! key = Some values →
  values ≠ [] ∧ Forall (fun v => v ≠ EmptyString) values.
Proof.
  unfold parse_qs. intros [= <-]. revert key values.
  pose proof (parse_qsl_values qs) as Hpairs.
  assert (∀ (key : string) (values : list string),
            (∅ : gmap string (list string)) !! key = Some values →
            values ≠ [] ∧ Forall (fun v => v ≠ EmptyString) values) as Hinit
    by (intros key values Hl; rewrite lookup_empty in Hl; discriminate).
  revert Hinit. generalize (∅ : gmap string (list string)).
  induction Hpairs as [|[n v] pairs Hv _ IH]; intros m Hm; simpl; [exact Hm|].
  apply IH. intros key values. simpl in Hv.
  destruct (m !! n) as [old|] eqn:Hn.
  - destruct (decide (n = key)) as [->|Hne].
    + rewrite lookup_insert_eq. intros [= <-].
      destruct (Hm key old Hn) as [_ Hold]. split.
      * destruct old; discriminate.
      * apply Forall_app. split; [exact Hold | constructor; [exact Hv | constructor]].
    + rewrite lookup_insert_ne by exact Hne. apply Hm.
  - destruct (decide (n = key)) as [->|Hne].
    + rewrite lookup_insert_eq. intros [= <-]. split; [discriminate|].
      constructor; [exact Hv | constructor].
    + rewrite lookup_insert_ne by exact Hne. apply Hm.
Qed.

(** With the reference [parse_qs], the first value of a parameter is absent
    or not empty. *)
Lemma parse_qs_get_first (qs key : string) (parsed_result : gmap string (list string)) :
  parse_qs qs = Return parsed_result →
  get_first parsed_result key = Return None
  ∨ ∃ c v, get_first parsed_result key = Return (Some (String c v)).
Proof.
  intros Hqs. unfold get_first, getitem.
  destruct (parsed_result !! key) as [values|] eqn:Hkey; [|left; reflexivity].
  destruct (parse_qs_values qs parsed_result key values Hqs Hkey) as [Hne Hall].
  destruct values as [|[|c v] rest]; [congruence| |].
  - inversion Hall; congruence.
  - right. exists c, v. reflexivity.
Qed.

(** ** The fuel of read_fields *)

Lemma varint_shorter (n : nat) (bs r : list byte) (shift acc v : Z) :
  varint n bs shift acc = Some (v, r) → (length r < length bs)%nat.
Proof.
  revert bs shift acc. induction n as [|n IH]; intros bs shift acc; simpl;
    [discriminate|].
  destruct bs as [|b rest]; [discriminate|].
  destruct (byteZ b <? 128).
  - intros [= _ <-]. simpl. lia.
  - intros Hrec. apply IH in Hrec. simpl. lia.
Qed.

Lemma take_bytes_shorter (n : Z) (bs v r : list byte) :
  take_bytes n bs = Some (v, r) → (length r <= length bs)%nat.
Proof.
  unfold take_bytes. destruct (n <=? Z.of_nat (length bs)); [|discriminate].
  intros [= _ <-]. rewrite length_skipn. lia.
Qed.

Lemma read_value_shorter (wire_type : Z) (bs r : list byte) (v : wire_value) :
  read_value wire_type bs = Some (v, r) → (length r <= length bs)%nat.
Proof.
  unfold read_value.
  destruct (wire_type =? 0).
  { destruct (varint 10 bs 0 0) as [[n r']|] eqn:Hv; [|discriminate].
    simpl. intros [= _ <-]. apply varint_shorter in Hv. lia. }
  destruct (wire_type =? 1).
  { destruct (take_bytes 8 bs) as [[w r']|] eqn:Ht; [|discriminate].
    simpl. intros [= _ <-]. eapply take_bytes_shorter. eassumption. }
  destruct (wire_type =? 2).
  { destruct (varint 10 bs 0 0) as [[n r']|] eqn:Hv; [|discriminate]. simpl.
    destruct (take_bytes n r') as [[w r'']|] eqn:Ht; [|discriminate].
    simpl. intros [= _ <-].
    apply varint_shorter in Hv. apply take_bytes_shorter in Ht. lia. }
  destruct (wire_type =? 5); [|discriminate].
  destruct (take_bytes 4 bs) as [[w r']|] eqn:Ht; [|discriminate].
  simpl. intros [= _ <-]. eapply take_bytes_shorter. eassumption.
Qed.

(** More fuel than the input has bytes is enough: the result does not
    depend on the fuel. *)
Lemma read_fields_fuel (fuel fuel' : nat) (bs : list byte) :
  (length bs < fuel)%nat → (length bs < fuel')%nat →
  read_fields fuel bs = read_fields fuel' bs.
Proof.
  revert fuel' bs. induction fuel as [|fuel IH]; intros fuel' bs Hf Hf'; [lia|].
  destruct fuel' as [|fuel']; [lia|].
  destruct bs as [|b rest]; [reflexivity|].
  cbn [read_fields].
  destruct (varint 10 (b :: rest) 0 0) as [[tag r]|] eqn:Hv; [|reflexivity].
  simpl. destruct (Z.shiftr tag 3 =? 0); [reflexivity|].
  destruct (read_value (Z.land tag 7) r) as [[v r']|] eqn:Hr; [|reflexivity].
  simpl. apply varint_shorter in Hv. apply read_value_shorter in Hr.
  simpl in Hv, Hf, Hf'. rewrite (IH fuel' r') by lia. reflexivity.
Qed.

End CPythonProperties.

(** * Further properties of the parsers *)

Lemma otpauth_digits_allowed (n : Z) :
  otpauth_digits n = 6 ∨ otpauth_digits n = 7 ∨ otpauth_digits n = 8.
Proof.
  unfold otpauth_digits, int_in_list. simpl.
  destruct (Z.eqb_spec n 6) as [->|?]; [auto|].
  destruct (Z.eqb_spec n 7) as [->|?]; [auto|].
  destruct (Z.eqb_spec n 8) as [->|?]; auto.
Qed.

Lemma migration_digits_allowed (code : Z) :
  migration_digits code = 6 ∨ migration_digits code = 7
  ∨ migration_digits code = 8.
Proof.
  unfold migration_digits, int_in_list. simpl.
  destruct (Z.eqb_spec code 6) as [->|?]; [auto|].
  destruct (Z.eqb_spec code 7) as [->|?]; [auto|].
  destruct (Z.eqb_spec code 8) as [->|?]; auto.
Qed.

Lemma otpauth_algorithm_allowed (a : string) :
  In (otpauth_algorithm a) ["SHA1"; "SHA256"; "SHA512"; "MD5"].
Proof.
  unfold otpauth_algorithm, str_in_list.
  destruct (existsb (String.eqb a) ["SHA1"; "SHA256"; "SHA512"; "MD5"]) eqn:Hin;
    simpl negb; cbv iota.
  - apply existsb_exists in Hin as (x & Hx & Heq).
    apply String.eqb_eq in Heq. subst x. exact Hx.
  - left. reflexivity.
Qed.

Lemma migration_algorithm_cases (code : Z) :
  migration_algorithm code
  = if decide (code = 1) then "SHA1"
    else if decide (code = 2) then "SHA256"
    else if decide (code = 3) then "SHA512"
    else if decide (code = 4) then "MD5"
    else "SHA1".
Proof.
  unfold migration_algorithm, algorithm_map.
  repeat (case_decide; [subst code; reflexivity|]).
  rewrite !lookup_insert_ne, lookup_empty by congruence. reflexivity.
Qed.

Lemma otp_account_ok (otp : OtpParameters.t) : account_ok (otp_account otp).
Proof.
  split; [|split].
  - rewrite otp_account_name. apply compose_display_name_nonempty.
  - apply migration_digits_allowed.
  - unfold otp_account. simpl. rewrite migration_algorithm_cases.
    repeat case_decide; simpl; auto.
Qed.

(** Without a colon the label is the account name, whatever the issuer
    parameter. *)
Lemma split_label_no_colon (issuer : option string) (label : string) :
  str_in ":" label = false →
  split_label issuer label
  = Return (match issuer with
            | Some (String _ _ as issuer) => issuer
            | _ => EmptyString
            end, label).
Proof.
  intros Hin. unfold split_label. rewrite Hin.
  destruct issuer as [[|c i]|]; reflexivity.
Qed.

Section ParserProperties.
Context {L : PyLib}.

Lemma parse_otpauth_url_returns (url : string) :
  ∃ r, parse_otpauth_url url = Return r.
Proof. unfold parse_otpauth_url. apply try_except_returns. Qed.

Lemma parse_migration_url_returns (url : string) :
  ∃ r, parse_migration_url url = Return r.
Proof. unfold parse_migration_url. apply try_except_returns. Qed.

Lemma parse_otpauth_url_ok (url : string) (acc : Account) :
  parse_otpauth_url url = Return (Some acc) →
  account_ok acc ∧ secret acc ≠ EmptyString.
Proof.
  intros Hrun.
  destruct (parse_otpauth_url_inv url acc Hrun)
    as (parsed & params & io & i & an & a & d & n
        & _ & _ & _ & _ & Hsecret & _ & _ & _ & _ & _ & Hacc).
  split; [|exact Hsecret]. rewrite Hacc. split; [|split]; simpl.
  - rewrite otpauth_display_name_compose. apply compose_display_name_nonempty.
  - apply otpauth_digits_allowed.
  - apply otpauth_algorithm_allowed.
Qed.

Lemma parse_migration_url_ok (url : string) (accounts : list Account) :
  parse_migration_url url = Return (Some accounts) →
  Forall account_ok accounts.
Proof.
  intros Hrun.
  destruct (parse_migration_url_inv url accounts Hrun)
    as (parsed & params & data & rest & payload & migration
        & _ & _ & _ & _ & _ & _ & ->).
  apply Forall_map, Forall_forall. intros otp _. apply otp_account_ok.
Qed.

(** X1: an account that [parse_otpauth_url] returns has a non-empty name
    and a non-empty secret, 6, 7 or 8 digits, and one of the algorithm names
    SHA1, SHA256, SHA512 and MD5. *)
Theorem parse_otpauth_url_account_ok (url : string) (acc : Account) :
  parse_otpauth_url url = Return (Some acc) →
  name acc ≠ EmptyString
  ∧ secret acc ≠ EmptyString
  ∧ (digits acc = 6 ∨ digits acc = 7 ∨ digits acc = 8)
  ∧ In (algorithm acc) ["SHA1"; "SHA256"; "SHA512"; "MD5"].
Proof.
  intros Hrun. destruct (parse_otpauth_url_ok url acc Hrun) as [[Hn [Hd Ha]] Hs].
  auto.
Qed.

(** X2: when the label has no colon it is the account name as a whole: with
    an issuer parameter the name of the account is composed of the parameter
    and the label, without one it is the label alone ("Unknown" for an empty
    label). *)
Theorem parse_otpauth_url_no_colon
    (url : string) (parsed : ParseResult) (params : gmap string (list string))
    (s a d : string) (srest : list string) (n : Z) :
  urlparse url = Return parsed →
  scheme parsed = "otpauth" →
  parse_qs (query parsed) = Return params →
  str_in ":" (unquote (lstrip "/" (path parsed))) = false →
  params !! "secret" = Some (s :: srest) →
  s ≠ EmptyString →
  get_first_or params "algorithm" "SHA1" = Return a →
  get_first_or params "digits" "6" = Return d →
  int d = Return n →
  (∀ issuer irest,
     params !! "issuer" = Some (issuer :: irest) → issuer ≠ EmptyString →
     parse_otpauth_url url
     = Return (Some {| name := compose_display_name issuer
                                 (unquote (lstrip "/" (path parsed)));
                       secret := s;
                       digits := otpauth_digits n;
                       algorithm := otpauth_algorithm (upper a) |}))
  ∧ (params !! "issuer" = None →
     parse_otpauth_url url
     = Return (Some {| name := compose_display_name EmptyString
                                 (unquote (lstrip "/" (path parsed)));
                       secret := s;
                       digits := otpauth_digits n;
                       algorithm := otpauth_algorithm (upper a) |})).
Proof.
  intros Hurl Hscheme Hqs Hlabel Hsecret Hs Halg Hdig Hint.
  assert (get_first params "secret" = Return (Some s)) as Hfirst
    by (apply get_first_Some; eauto).
  split.
  - intros issuer irest Hissuer Hne.
    rewrite <- otpauth_display_name_compose.
    eapply parse_otpauth_url_builds; try eassumption.
    + apply get_first_Some. eauto.
    + rewrite split_label_no_colon by exact Hlabel.
      destruct issuer; [congruence | reflexivity].
  - intros Hissuer.
    rewrite <- otpauth_display_name_compose.
    eapply parse_otpauth_url_builds; try eassumption.
    + apply get_first_None. exact Hissuer.
    + rewrite split_label_no_colon by exact Hlabel. reflexivity.
Qed.

(** X3: [parse_otpauth_url] returns an account exactly when [urlparse]
    returns a result with the scheme otpauth, [parse_qs] returns, the first
    value of the secret parameter is there and not empty, the first values
    of the issuer, algorithm and digits parameters can be taken (none of
    them is an empty list), and [int] accepts the digits value (or its
    default "6").  By [parse_otpauth_url_console_some] the same holds with
    the print of the handler, whatever the console does. *)
Theorem parse_otpauth_url_some_iff (url : string) :
  (∃ acc, parse_otpauth_url url = Return (Some acc)) ↔
  ∃ parsed params s io a d n,
    urlparse url = Return parsed ∧
    scheme parsed = "otpauth" ∧
    parse_qs (query parsed) = Return params ∧
    get_first params "secret" = Return (Some s) ∧
    s ≠ EmptyString ∧
    get_first params "issuer" = Return io ∧
    get_first_or params "algorithm" "SHA1" = Return a ∧
    get_first_or params "digits" "6" = Return d ∧
    int d = Return n.
Proof.
  split.
  - intros (acc & Hrun).
    destruct (parse_otpauth_url_inv url acc Hrun)
      as (parsed & params & io & i & an & a & d & n
          & Hurl & Hscheme & Hqs & Hsecret & Hs & Hissuer & _ & Halg & Hdig
          & Hint & _).
    exists parsed, params, (secret acc), io, a, d, n. auto 10.
  - intros (parsed & params & s & io & a & d & n
            & Hurl & Hscheme & Hqs & Hsecret & Hs & Hissuer & Halg & Hdig & Hint).
    destruct (split_label_returns io (unquote (lstrip "/" (path parsed))))
      as (i & an & Hlabel).
    eexists. eapply parse_otpauth_url_builds; eassumption.
Qed.

(** X4: a digits value that [int] rejects makes [parse_otpauth_url] yield no
    result, whatever the rest of the URL holds. *)
Theorem parse_otpauth_url_int_raises
    (url d : string) (parsed : ParseResult)
    (params : gmap string (list string)) (e : exn) :
  urlparse url = Return parsed →
  parse_qs (query parsed) = Return params →
  get_first_or params "digits" "6" = Return d →
  int d = Raise e →
  parse_otpauth_url url = Return None.
Proof.
  intros Hurl Hqs Hdig Hint.
  destruct (parse_otpauth_url_returns url) as [[acc|] Hrun]; [|exact Hrun].
  destruct (parse_otpauth_url_inv url acc Hrun)
    as (parsed' & params' & io & i & an & a & d' & n
        & Hurl' & _ & Hqs' & _ & _ & _ & _ & _ & Hdig' & Hint' & _).
  rewrite Hurl in Hurl'. injection Hurl' as <-.
  rewrite Hqs in Hqs'. injection Hqs' as <-.
  rewrite Hdig in Hdig'. injection Hdig' as <-.
  congruence.
Qed.

End ParserProperties.

(** * Base32: the secret can be read back *)

Lemma byteZ_range (b : byte) : 0 <= byteZ b < 256.
Proof.
  unfold byteZ. pose proof (Byte.to_N_bounded b) as Hb. lia.
Qed.

Lemma lor_shiftl_add (hi lo k : Z) :
  0 <= k → 0 <= lo < 2 ^ k → Z.lor (Z.shiftl hi k) lo = hi * 2 ^ k + lo.
Proof.
  intros Hk Hlo.
  assert (Z.land (Z.shiftl hi k) lo = 0) as Hland.
  { apply Z.bits_inj'. intros i Hi. rewrite Z.land_spec, Z.bits_0.
    destruct (Z.lt_ge_cases i k) as [Hlt|Hge].
    - rewrite Z.shiftl_spec_low by lia. reflexivity.
    - assert (Z.testbit lo i = false) as ->; [|apply andb_false_r].
      apply Z.testbit_false; [lia|].
      rewrite Z.div_small; [reflexivity|]. split; [lia|].
      apply Z.lt_le_trans with (2 ^ k); [lia | apply Z.pow_le_mono_r; lia]. }
  pose proof (Z.add_lor_land (Z.shiftl hi k) lo) as Hadd.
  rewrite Hland, Z.shiftl_mul_pow2 in Hadd by lia.
  rewrite Z.shiftl_mul_pow2 by lia. lia.
Qed.

Lemma b32value_char (m : Z) : b32value (b32char m) = Some (Z.land m 31).
Proof.
  unfold b32char. change 31 with (Z.ones 5). rewrite Z.land_ones by lia.
  pose proof (Z.mod_pos_bound m (2 ^ 5) ltac:(lia)) as Hk.
  set (k := m mod 2 ^ 5) in *. clearbody k.
  assert (∃ j : nat, (j < 32)%nat ∧ k = Z.of_nat j) as (j & Hj & ->)
    by (exists (Z.to_nat k); split; lia).
  rewrite Nat2Z.id.
  do 32 (destruct j as [|j]; [reflexivity|]). lia.
Qed.

Lemma byte_of_Z_mod (x : Z) (a : byte) :
  x mod 256 = byteZ a → CPython.byte_of_Z x = a.
Proof.
  intros Hx. unfold CPython.byte_of_Z.
  change 255 with (Z.ones 8). rewrite Z.land_ones by lia.
  change (2 ^ 8) with 256. rewrite Hx.
  unfold byteZ. rewrite N2Z.id, Byte.of_to_N. reflexivity.
Qed.

(** The 40-bit number of a group is the sum of its bytes. *)
Lemma group_number (a b c d e : Z) :
  0 <= a < 256 → 0 <= b < 256 → 0 <= c < 256 → 0 <= d < 256 → 0 <= e < 256 →
  Z.lor (Z.shiftl a 32)
    (Z.lor (Z.shiftl b 24) (Z.lor (Z.shiftl c 16) (Z.lor (Z.shiftl d 8) e)))
  = a * 2 ^ 32 + b * 2 ^ 24 + c * 2 ^ 16 + d * 2 ^ 8 + e.
Proof.
  intros Ha Hb Hc Hd He.
  rewrite (lor_shiftl_add d e 8) by lia.
  rewrite (lor_shiftl_add c _ 16) by lia.
  rewrite (lor_shiftl_add b _ 24) by lia.
  rewrite (lor_shiftl_add a _ 32) by lia.
  lia.
Qed.

Lemma b32number_eight (v0 v1 v2 v3 v4 v5 v6 v7 : Z) :
  0 <= v0 < 32 → 0 <= v1 < 32 → 0 <= v2 < 32 → 0 <= v3 < 32 →
  0 <= v4 < 32 → 0 <= v5 < 32 → 0 <= v6 < 32 → 0 <= v7 < 32 →
  b32number [v0; v1; v2; v3; v4; v5; v6; v7] 0
  = v0 * 2 ^ 35 + v1 * 2 ^ 30 + v2 * 2 ^ 25 + v3 * 2 ^ 20
    + v4 * 2 ^ 15 + v5 * 2 ^ 10 + v6 * 2 ^ 5 + v7.
Proof.
  intros H0 H1 H2 H3 H4 H5 H6 H7. cbn [b32number].
  rewrite !lor_shiftl_add by lia. lia.
Qed.

Lemma digit_spec (n k : Z) :
  0 <= k → Z.land (Z.shiftr n k) 31 = (n / 2 ^ k) mod 32.
Proof.
  intros Hk. change 31 with (Z.ones 5).
  rewrite Z.land_ones, Z.shiftr_div_pow2 by lia. reflexivity.
Qed.

Lemma digits_number (n : Z) :
  0 <= n < 2 ^ 40 →
  (n / 2 ^ 35) mod 32 * 2 ^ 35 + (n / 2 ^ 30) mod 32 * 2 ^ 30
  + (n / 2 ^ 25) mod 32 * 2 ^ 25 + (n / 2 ^ 20) mod 32 * 2 ^ 20
  + (n / 2 ^ 15) mod 32 * 2 ^ 15 + (n / 2 ^ 10) mod 32 * 2 ^ 10
  + (n / 2 ^ 5) mod 32 * 2 ^ 5 + (n / 2 ^ 0) mod 32 = n.
Proof.
  intros Hn. 
  change (2 ^ 35) with 34359738368. change (2 ^ 30) with 1073741824.
  change (2 ^ 25) with 33554432. change (2 ^ 20) with 1048576.
  change (2 ^ 15) with 32768. change (2 ^ 10) with 1024. change (2 ^ 5) with 32.
  change (2 ^ 0) with 1. change (2 ^ 40) with 1099511627776 in Hn.
  Z.div_mod_to_equations. lia.
Qed.

Lemma digit_range (n k : Z) : 0 <= (n / 2 ^ k) mod 32 < 32.
Proof. apply Z.mod_pos_bound. lia. Qed.

Ltac group_start :=
  unfold b32decode_group; cbn [b32data];
  rewrite ?b32value_char; change (b32value "=") with (@None Z);
  cbn [length skipn forallb repeat Nat.sub app Ascii.eqb Bool.eqb andb];
  cbv iota;
  rewrite ?digit_spec by lia.

Lemma b32decode_group_8 (n : Z) :
  0 <= n < 2 ^ 40 →
  b32decode_group
    [b32char (Z.shiftr n 35); b32char (Z.shiftr n 30); b32char (Z.shiftr n 25);
     b32char (Z.shiftr n 20); b32char (Z.shiftr n 15); b32char (Z.shiftr n 10);
     b32char (Z.shiftr n 5); b32char (Z.shiftr n 0)]
  = Some (b32bytes n).
Proof.
  intros Hn. group_start.
  rewrite b32number_eight by apply digit_range.
  rewrite digits_number by exact Hn. reflexivity.
Qed.

(** A digit below the lowest set bit is zero. *)
Lemma zero_digit (n j k : Z) :
  0 <= k → k + 5 <= j → n mod 2 ^ j = 0 → (n / 2 ^ k) mod 32 = 0.
Proof.
  intros Hk Hj Hlow.
  apply Z.mod_divide in Hlow; [|lia]. destruct Hlow as [q ->].
  replace (2 ^ j) with (2 ^ (j - k - 5) * 32 * 2 ^ k).
  - rewrite Z.mul_assoc, Z.div_mul by lia.
    rewrite Z.mul_assoc, Z.mod_mul by lia. reflexivity.
  - change 32 with (2 ^ 5). rewrite <- !Z.pow_add_r by lia. f_equal. lia.
Qed.

Ltac padded_group n j :=
  intros Hn Hlow; group_start;
  pose proof (digits_number n Hn) as Hsum;
  rewrite ?(zero_digit n j 25), ?(zero_digit n j 20), ?(zero_digit n j 15),
    ?(zero_digit n j 10), ?(zero_digit n j 5), ?(zero_digit n j 0) in Hsum
    by (try lia; exact Hlow);
  rewrite b32number_eight by (try apply digit_range; lia);
  match goal with
  | |- Some (firstn _ (b32bytes ?x)) = _ => replace x with n by lia
  end;
  reflexivity.

Lemma b32decode_group_7 (n : Z) :
  0 <= n < 2 ^ 40 → n mod 2 ^ 5 = 0 →
  b32decode_group
    [b32char (Z.shiftr n 35); b32char (Z.shiftr n 30); b32char (Z.shiftr n 25);
     b32char (Z.shiftr n 20); b32char (Z.shiftr n 15); b32char (Z.shiftr n 10);
     b32char (Z.shiftr n 5); "="%char]
  = Some (firstn 4 (b32bytes n)).
Proof. padded_group n 5. Qed.

Lemma b32decode_group_5 (n : Z) :
  0 <= n < 2 ^ 40 → n mod 2 ^ 15 = 0 →
  b32decode_group
    [b32char (Z.shiftr n 35); b32char (Z.shiftr n 30); b32char (Z.shiftr n 25);
     b32char (Z.shiftr n 20); b32char (Z.shiftr n 15);
     "="%char; "="%char; "="%char]
  = Some (firstn 3 (b32bytes n)).
Proof. padded_group n 15. Qed.

Lemma b32decode_group_4 (n : Z) :
  0 <= n < 2 ^ 40 → n mod 2 ^ 20 = 0 →
  b32decode_group
    [b32char (Z.shiftr n 35); b32char (Z.shiftr n 30); b32char (Z.shiftr n 25);
     b32char (Z.shiftr n 20); "="%char; "="%char; "="%char; "="%char]
  = Some (firstn 2 (b32bytes n)).
Proof. padded_group n 20. Qed.

Lemma b32decode_group_2 (n : Z) :
  0 <= n < 2 ^ 40 → n mod 2 ^ 30 = 0 →
  b32decode_group
    [b32char (Z.shiftr n 35); b32char (Z.shiftr n 30);
     "="%char; "="%char; "="%char; "="%char; "="%char; "="%char]
  = Some (firstn 1 (b32bytes n)).
Proof. padded_group n 30. Qed.

Lemma group_bits_sum (a b c d e : byte) :
  group_bits a b c d e
  = byteZ a * 2 ^ 32 + byteZ b * 2 ^ 24 + byteZ c * 2 ^ 16
    + byteZ d * 2 ^ 8 + byteZ e.
Proof. apply group_number; apply byteZ_range. Qed.

Lemma group_bits_range (a b c d e : byte) : 0 <= group_bits a b c d e < 2 ^ 40.
Proof.
  rewrite group_bits_sum.
  pose proof (byteZ_range a). pose proof (byteZ_range b).
  pose proof (byteZ_range c). pose proof (byteZ_range d).
  pose proof (byteZ_range e). lia.
Qed.

Lemma b32bytes_group (a b c d e : byte) :
  b32bytes (group_bits a b c d e) = [a; b; c; d; e].
Proof.
  unfold b32bytes. cbn [map]. rewrite !Z.shiftr_div_pow2 by lia.
  rewrite group_bits_sum.
  pose proof (byteZ_range a). pose proof (byteZ_range b).
  pose proof (byteZ_range c). pose proof (byteZ_range d).
  pose proof (byteZ_range e).
  repeat f_equal; apply byte_of_Z_mod;
    change (2 ^ 32) with 4294967296; change (2 ^ 24) with 16777216;
    change (2 ^ 16) with 65536; change (2 ^ 8) with 256; change (2 ^ 0) with 1;
    Z.div_mod_to_equations; lia.
Qed.

Lemma append_String (c : ascii) (s t : string) :
  String c s +:+ t = String c (s +:+ t).
Proof. reflexivity. Qed.

Lemma append_Empty (t : string) : EmptyString +:+ t = t.
Proof. reflexivity. Qed.

Ltac encode_step :=
  cbn [b32encode]; unfold chars, b32group;
  cbn [map firstn string_of_list_ascii];
  rewrite !append_String, append_Empty;
  cbn [b32decode].

Ltac low_bits_of j :=
  rewrite group_bits_sum; change (byteZ x00) with 0;
  change (2 ^ 32) with 4294967296; change (2 ^ 24) with 16777216;
  change (2 ^ 16) with 65536; change (2 ^ 8) with 256;
  let c := eval vm_compute in (2 ^ j) in change (2 ^ j) with c;
  Z.div_mod_to_equations; lia.

(** Decoding undoes encoding. *)
Lemma b32decode_b32encode (s : list byte) : b32decode (b32encode s) = Some s.
Proof.
  assert (∀ (k : nat) (s : list byte),
            (length s < k)%nat → b32decode (b32encode s) = Some s) as Hall.
  { induction k as [|k IH]; intros t Hk; [lia|].
    destruct t as [|a [|b [|c [|d [|e rest]]]]].
    - reflexivity.
    - encode_step. fold (group_bits a x00 x00 x00 x00).
      rewrite b32decode_group_2, b32bytes_group;
        [reflexivity | apply group_bits_range | low_bits_of 30].
    - encode_step. fold (group_bits a b x00 x00 x00).
      rewrite b32decode_group_4, b32bytes_group;
        [reflexivity | apply group_bits_range | low_bits_of 20].
    - encode_step. fold (group_bits a b c x00 x00).
      rewrite b32decode_group_5, b32bytes_group;
        [reflexivity | apply group_bits_range | low_bits_of 15].
    - encode_step. fold (group_bits a b c d x00).
      rewrite b32decode_group_7, b32bytes_group;
        [reflexivity | apply group_bits_range | low_bits_of 5].
    - encode_step. fold (group_bits a b c d e).
      rewrite b32decode_group_8, b32bytes_group by apply group_bits_range.
      cbn [mbind option_bind length Nat.ltb Nat.leb].
      rewrite IH by (simpl in Hk; lia). reflexivity. }
  apply (Hall (S (length s))). lia.
Qed.


(** X5: [b32encode] loses nothing: two secrets with the same Base32 text
    are the same bytes. *)
Theorem b32encode_injective (s t : list byte) :
  b32encode s = b32encode t → s = t.
Proof.
  intros Heq. pose proof (b32decode_b32encode s) as Hs.
  rewrite Heq, b32decode_b32encode in Hs. congruence.
Qed.

Lemma b32encode_injective_witness : [x00; x01] = [x00; x01].
Proof.
  apply (b32encode_injective [x00; x01] [x00; x01]). reflexivity.
Defined.

(** X6: the Base32 text of a secret of n bytes has 8 characters for every
    five bytes begun: its length is 8 * ceil(n / 5). *)
Theorem b32encode_length (s : list byte) :
  String.length (b32encode s) = (8 * ((length s + 4) / 5))%nat.
Proof.
  assert (∀ (k : nat) (s : list byte),
            (length s < k)%nat →
            String.length (b32encode s) = (8 * ((length s + 4) / 5))%nat)
    as Hall.
  { induction k as [|k IH]; intros t Hk; [lia|].
    destruct t as [|a [|b [|c [|d [|e rest]]]]]; try reflexivity.
    cbn [b32encode]. unfold b32group. cbn [map string_of_list_ascii].
    rewrite !append_String, append_Empty. cbn [String.length length].
    rewrite IH by (simpl in Hk; lia).
    replace (S (S (S (S (S (length rest)))) ) + 4)%nat
      with (1 * 5 + (length rest + 4))%nat by lia.
    rewrite Nat.div_add_l by lia. lia. }
  apply (Hall (S (length s))). lia.
Qed.

Section SecretRoundTrip.
Context {L : PyLib}.

(** X7: the secret bytes of every entry can be read back from the account
    [parse_migration_url] returns for it: decoding the Base32 text gives the
    bytes of the entry. *)
Theorem parse_migration_url_secrets_decode
    (url : string) (accounts : list Account) :
  parse_migration_url url = Return (Some accounts) →
  ∃ payload migration,
    ParseFromString payload = Return migration ∧
    map (fun acc => b32decode (secret acc)) accounts
    = map (fun otp => Some (OtpParameters.secret otp))
        (otp_parameters migration).
Proof.
  intros Hrun.
  destruct (parse_migration_url_inv url accounts Hrun)
    as (parsed & params & data & rest & payload & migration
        & _ & _ & _ & _ & _ & Hpb & ->).
  exists payload, migration. split; [exact Hpb|].
  rewrite map_map. apply map_ext. intros otp.
  unfold otp_account. simpl. apply b32decode_b32encode.
Qed.

End SecretRoundTrip.

Lemma parse_migration_url_secrets_decode_witness :
  ∃ payload migration,
    CPython.ParseFromString payload = Return migration ∧
    [b32decode "AAAQ===="; b32decode "74======"]
    = map (fun otp => Some (OtpParameters.secret otp))
        (otp_parameters migration).
Proof.
  apply (parse_migration_url_secrets_decode (L := CPython.lib) two_entries_url
           [{| name := "GitHub (Ericlein)"; secret := "AAAQ===="; digits := 6;
               algorithm := "SHA1" |};
            {| name := "Discord"; secret := "74======"; digits := 6;
               algorithm := "SHA1" |}]).
  vm_compute. reflexivity.
Defined.

(** * Further properties of the parsers: examples and the migration path *)

Lemma parse_otpauth_url_account_ok_witness :
  "Example (alice)" ≠ EmptyString
  ∧ "JBSWY3DPEHPK3PXP" ≠ EmptyString
  ∧ (8 = 6 ∨ 8 = 7 ∨ 8 = 8)
  ∧ In "SHA256" ["SHA1"; "SHA256"; "SHA512"; "MD5"].
Proof.
  apply (parse_otpauth_url_account_ok (L := CPython.lib) example_otpauth_url
           {| name := "Example (alice)"; secret := "JBSWY3DPEHPK3PXP";
              digits := 8; algorithm := "SHA256" |}).
  vm_compute. reflexivity.
Defined.

Lemma parse_otpauth_url_no_colon_witness :
  parse_otpauth_url (L := CPython.lib)
    "otpauth://totp/alice?secret=JBSWY3DPEHPK3PXP&issuer=Example"
  = Return (Some {| name := "Example (alice)";
                    secret := "JBSWY3DPEHPK3PXP";
                    digits := 6;
                    algorithm := "SHA1" |}).
Proof.
  refine (proj1 (parse_otpauth_url_no_colon (L := CPython.lib)
            "otpauth://totp/alice?secret=JBSWY3DPEHPK3PXP&issuer=Example"
            {| scheme := "otpauth"; netloc := "totp"; path := "/alice";
               params := ""; query := "secret=JBSWY3DPEHPK3PXP&issuer=Example";
               fragment := "" |}
            (<["secret" := ["JBSWY3DPEHPK3PXP"]]> (<["issuer" := ["Example"]]> ∅))
            "JBSWY3DPEHPK3PXP" "SHA1" "6" [] 6
            _ _ _ _ _ _ _ _ _) "Example" [] _ _);
    try (vm_compute; reflexivity).
  - discriminate.
  - discriminate.
Defined.

Lemma parse_otpauth_url_some_iff_witness :
  ∃ acc, parse_otpauth_url (L := CPython.lib) example_otpauth_url
         = Return (Some acc).
Proof.
  apply (proj2 (parse_otpauth_url_some_iff (L := CPython.lib)
                  example_otpauth_url)).
  exists {| scheme := "otpauth"; netloc := "totp"; path := "/Example:alice";
            params := "";
            query := "secret=JBSWY3DPEHPK3PXP&algorithm=sha256&digits=8";
            fragment := "" |},
    (<["secret" := ["JBSWY3DPEHPK3PXP"]]>
       (<["algorithm" := ["sha256"]]> (<["digits" := ["8"]]> ∅))),
    "JBSWY3DPEHPK3PXP", None, "sha256", "8", 8.
  repeat split; try (vm_compute; reflexivity). discriminate.
Defined.

Lemma parse_otpauth_url_int_raises_witness :
  parse_otpauth_url (L := CPython.lib) digits_abc_url = Return None.
Proof.
  apply (parse_otpauth_url_int_raises (L := CPython.lib) digits_abc_url "abc"
           {| scheme := "otpauth"; netloc := "totp"; path := "/Example";
              params := ""; query := "secret=JBSWY3DPEHPK3PXP&digits=abc";
              fragment := "" |}
           (<["secret" := ["JBSWY3DPEHPK3PXP"]]> (<["digits" := ["abc"]]> ∅))
           ValueError);
    vm_compute; reflexivity.
Defined.

(** X8: the algorithm code of an entry is mapped by the table 1 SHA1,
    2 SHA256, 3 SHA512, 4 MD5; every other integer gives SHA1. *)
Theorem migration_algorithm_codes :
  (∀ otp : OtpParameters.t,
     algorithm (otp_account otp)
     = migration_algorithm (OtpParameters.algorithm otp))
  ∧ migration_algorithm 1 = "SHA1"
  ∧ migration_algorithm 2 = "SHA256"
  ∧ migration_algorithm 3 = "SHA512"
  ∧ migration_algorithm 4 = "MD5"
  ∧ ∀ code : Z,
      code < 1 ∨ 4 < code → migration_algorithm code = "SHA1".
Proof.
  split; [reflexivity|]. repeat split; try reflexivity.
  intros code Hcode. rewrite migration_algorithm_cases.
  repeat case_decide; try lia. reflexivity.
Qed.

Lemma migration_algorithm_codes_witness : migration_algorithm 0 = "SHA1".
Proof.
  apply (proj2 (proj2 (proj2 (proj2 (proj2 migration_algorithm_codes))))).
  left. lia.
Defined.

Section MigrationExtras.
Context {L : PyLib}.

(** X9: every account that [parse_migration_url] returns has a non-empty
    name, 6, 7 or 8 digits, and one of the algorithm names SHA1, SHA256,
    SHA512 and MD5. *)
Theorem parse_migration_url_accounts_ok
    (url : string) (accounts : list Account) :
  parse_migration_url url = Return (Some accounts) →
  Forall (fun acc =>
            name acc ≠ EmptyString
            ∧ (digits acc = 6 ∨ digits acc = 7 ∨ digits acc = 8)
            ∧ In (algorithm acc) ["SHA1"; "SHA256"; "SHA512"; "MD5"])
    accounts.
Proof. apply parse_migration_url_ok. Qed.

(** X10: [parse_migration_url] returns one account per entry of the
    payload, in the order of the entries: the account at a position is the
    one built from the entry at that position. *)
Theorem parse_migration_url_in_order
    (url : string) (accounts : list Account) :
  parse_migration_url url = Return (Some accounts) →
  ∃ payload migration,
    ParseFromString payload = Return migration ∧
    length accounts = length (otp_parameters migration) ∧
    ∀ i : nat,
      accounts !! i = otp_account <$> otp_parameters migration !! i.
Proof.
  intros Hrun.
  destruct (parse_migration_url_inv url accounts Hrun)
    as (parsed & params & data & rest & payload & migration
        & _ & _ & _ & _ & _ & Hpb & ->).
  exists payload, migration. split; [exact Hpb|]. split.
  - apply length_map.
  - intros i. apply list_lookup_fmap.
Qed.

(** X11: [parse_migration_url] returns a list exactly when [urlparse]
    returns a result with the scheme otpauth-migration, [parse_qs] returns,
    the data parameter has a first value, and both the Base64 decoding of
    that value and the protobuf parsing of the bytes return.  By
    [parse_migration_url_console_some] the same holds with the print of the
    handler, whatever the console does. *)
Theorem parse_migration_url_some_iff (url : string) :
  (∃ accounts, parse_migration_url url = Return (Some accounts)) ↔
  ∃ parsed params data rest payload migration,
    urlparse url = Return parsed ∧
    scheme parsed = "otpauth-migration" ∧
    parse_qs (query parsed) = Return params ∧
    params !! "data" = Some (data :: rest) ∧
    urlsafe_b64decode data = Return payload ∧
    ParseFromString payload = Return migration.
Proof.
  split.
  - intros (accounts & Hrun).
    destruct (parse_migration_url_inv url accounts Hrun)
      as (parsed & params & data & rest & payload & migration
          & Hurl & Hscheme & Hqs & Hdata & Hb64 & Hpb & _).
    exists parsed, params, data, rest, payload, migration. auto 10.
  - intros (parsed & params & data & rest & payload & migration
            & Hurl & Hscheme & Hqs & Hdata & Hb64 & Hpb).
    eexists. eapply parse_migration_url_builds; eassumption.
Qed.

(** X12: a payload that cannot be decoded gives no result: when the Base64
    decoding or the protobuf parsing raises, [parse_migration_url] returns
    None, not an exception and not a part of the accounts. *)
Theorem parse_migration_url_decode_failure
    (url data : string) (rest : list string) (parsed : ParseResult)
    (params : gmap string (list string)) :
  urlparse url = Return parsed →
  parse_qs (query parsed) = Return params →
  params !! "data" = Some (data :: rest) →
  (∃ e, urlsafe_b64decode data = Raise e)
  ∨ (∃ payload e, urlsafe_b64decode data = Return payload
                  ∧ ParseFromString payload = Raise e) →
  parse_migration_url url = Return None.
Proof.
  intros Hurl Hqs Hdata Hfail.
  destruct (parse_migration_url_returns url) as [[accounts|] Hrun];
    [|exact Hrun].
  destruct (parse_migration_url_inv url accounts Hrun)
    as (parsed' & params' & data' & rest' & payload' & migration
        & Hurl' & _ & Hqs' & Hdata' & Hb64 & Hpb & _).
  rewrite Hurl in Hurl'. injection Hurl' as <-.
  rewrite Hqs in Hqs'. injection Hqs' as <-.
  rewrite Hdata in Hdata'. injection Hdata' as <- <-.
  destruct Hfail as [(e & He) | (payload & e & Hp & He)]; congruence.
Qed.

End MigrationExtras.

Lemma parse_migration_url_accounts_ok_witness :
  Forall (fun acc =>
            name acc ≠ EmptyString
            ∧ (digits acc = 6 ∨ digits acc = 7 ∨ digits acc = 8)
            ∧ In (algorithm acc) ["SHA1"; "SHA256"; "SHA512"; "MD5"])
    [{| name := "GitHub (Ericlein)"; secret := "AAAQ===="; digits := 6;
        algorithm := "SHA256" |}].
Proof.
  apply (parse_migration_url_accounts_ok (L := CPython.lib) eight_digits_url).
  vm_compute. reflexivity.
Defined.

Lemma parse_migration_url_in_order_witness :
  ∃ payload migration,
    CPython.ParseFromString payload = Return migration ∧
    length [example_account_1; example_account_2]
    = length (otp_parameters migration) ∧
    ∀ i : nat,
      [example_account_1; example_account_2] !! i
      = otp_account <$> otp_parameters migration !! i.
Proof.
  apply (parse_migration_url_in_order (L := CPython.lib) two_entries_url).
  vm_compute. reflexivity.
Defined.

Lemma parse_migration_url_some_iff_witness :
  ∃ accounts, parse_migration_url (L := CPython.lib) two_entries_url
              = Return (Some accounts).
Proof.
  apply (proj2 (parse_migration_url_some_iff (L := CPython.lib) two_entries_url)).
  exists {| scheme := "otpauth-migration"; netloc := "offline"; path := "";
            params := "";
            query := "data=ChYKAgABEghFcmljbGVpbhoGR2l0SHViCgwKAf8aB0Rpc2NvcmQ%3D";
            fragment := "" |},
    (<["data" := ["ChYKAgABEghFcmljbGVpbhoGR2l0SHViCgwKAf8aB0Rpc2NvcmQ="]]> ∅),
    "ChYKAgABEghFcmljbGVpbhoGR2l0SHViCgwKAf8aB0Rpc2NvcmQ=", [],
    two_entries_payload,
    {| otp_parameters := two_entries; version := 0; batch_size := 0;
       batch_index := 0; batch_id := 0 |}.
  repeat split; vm_compute; reflexivity.
Defined.

(** A payload cut after the length of its first entry: the protobuf parser
    raises, and no account is returned. *)
Lemma parse_migration_url_decode_failure_witness :
  parse_migration_url (L := CPython.lib)
    "otpauth-migration://offline?data=ChYKAgAB"
  = Return None.
Proof.
  apply (parse_migration_url_decode_failure (L := CPython.lib)
           "otpauth-migration://offline?data=ChYKAgAB" "ChYKAgAB" []
           {| scheme := "otpauth-migration"; netloc := "offline"; path := "";
              params := ""; query := "data=ChYKAgAB"; fragment := "" |}
           (<["data" := ["ChYKAgAB"]]> ∅)).
  - vm_compute. reflexivity.
  - vm_compute. reflexivity.
  - vm_compute. reflexivity.
  - right. exists [x0a; x16; x0a; x02; x00; x01], DecodeError.
    split; vm_compute; reflexivity.
Defined.

(** * The dispatcher *)

Lemma results_loop_valid (results : list (list byte)) (urls : list string) :
  forallb CPython.utf8_valid results = true →
  results_loop results urls = Return (urls ++ map string_of_list_byte results).
Proof.
  revert urls. induction results as [|data rest IH]; intros urls Hall; simpl.
  - rewrite app_nil_r. reflexivity.
  - simpl in Hall. apply andb_prop in Hall as [Hdata Hrest].
    unfold decode_utf8. rewrite Hdata, bind_Return, IH by exact Hrest.
    rewrite <- app_assoc. reflexivity.
Qed.

Lemma results_loop_invalid (results : list (list byte)) (urls : list string) :
  forallb CPython.utf8_valid results = false →
  results_loop results urls = Raise ValueError.
Proof.
  revert urls. induction results as [|data rest IH]; intros urls Hall; simpl.
  - discriminate.
  - simpl in Hall. unfold decode_utf8.
    destruct (CPython.utf8_valid data); simpl in Hall.
    + rewrite bind_Return. apply IH. exact Hall.
    + reflexivity.
Qed.

Section DispatcherProperties.
Context {L : PyLib}.
Variable PROJECT_ROOT : list string.
Variable qr_decode : string → result (list (list byte)).

Lemma decode_qr_image_cases
    (img_path : list string) (fs : gmap (list string) node) :
  decode_qr_image qr_decode img_path fs
  = Return match open_r img_path fs with
           | Return contents =>
               match qr_decode contents with
               | Return results =>
                   if forallb CPython.utf8_valid results
                   then map string_of_list_byte results
                   else []
               | Raise _ => []
               end
           | Raise _ => []
           end.
Proof.
  unfold decode_qr_image, decode_qr_image_try.
  destruct (open_r img_path fs) as [contents|e]; [|reflexivity].
  rewrite bind_Return.
  destruct (qr_decode contents) as [results|e]; [|reflexivity].
  rewrite bind_Return.
  destruct (forallb CPython.utf8_valid results) eqn:Hall.
  - rewrite results_loop_valid by exact Hall. reflexivity.
  - rewrite results_loop_invalid by exact Hall. reflexivity.
Qed.

(** The loop appends the accounts of each text, in the order of the
    texts. *)
Lemma urls_loop_flat_map (urls : list string) (accounts : list Account) :
  urls_loop urls accounts = Return (accounts ++ flat_map url_accounts urls).
Proof.
  revert accounts. induction urls as [|url rest IH]; intros accounts.
  - simpl. rewrite app_nil_r. reflexivity.
  - cbn [urls_loop flat_map]. unfold url_accounts at 1.
    destruct (String.prefix "otpauth://" url).
    + destruct (parse_otpauth_url_returns url) as [[account|] ->];
        rewrite bind_Return, IH.
      * rewrite <- app_assoc. reflexivity.
      * reflexivity.
    + destruct (String.prefix "otpauth-migration://" url).
      * destruct (parse_migration_url_returns url) as [[[|a l]|] ->];
          rewrite bind_Return, IH; try reflexivity.
        rewrite <- app_assoc. reflexivity.
      * rewrite IH. reflexivity.
Qed.

Lemma process_qr_code_cases (fs : gmap (list string) node) :
  ∃ urls,
    decode_qr_image qr_decode (IMG_PNG PROJECT_ROOT) fs = Return urls ∧
    process_qr_code PROJECT_ROOT qr_decode fs
    = Return (if path_exists (IMG_PNG PROJECT_ROOT) fs
              then match flat_map url_accounts urls with
                   | [] => None
                   | accounts => Some accounts
                   end
              else None).
Proof.
  unfold process_qr_code. rewrite decode_qr_image_cases.
  eexists. split; [reflexivity|].
  destruct (path_exists (IMG_PNG PROJECT_ROOT) fs); [|reflexivity].
  simpl negb. cbv iota. rewrite bind_Return.
  match goal with
  | |- context [flat_map url_accounts ?u] => destruct u as [|url urls]
  end; [reflexivity|].
  rewrite urls_loop_flat_map, bind_Return. cbn [app].
  destruct (flat_map url_accounts (url :: urls)); reflexivity.
Qed.

Lemma url_accounts_ok (url : string) : Forall account_ok (url_accounts url).
Proof.
  unfold url_accounts.
  destruct (String.prefix "otpauth://" url).
  - destruct (parse_otpauth_url url) as [[acc|]|e] eqn:Hrun; try constructor.
    + apply parse_otpauth_url_ok in Hrun. tauto.
    + constructor.
  - destruct (String.prefix "otpauth-migration://" url); [|constructor].
    destruct (parse_migration_url url) as [[accounts|]|e] eqn:Hrun;
      try constructor.
    apply parse_migration_url_ok in Hrun. exact Hrun.
Qed.

(** X13: [decode_qr_image] returns the texts of all codes of the image, in
    their order, when the image can be opened and decoded and every code is
    UTF-8 text.  When one code is not UTF-8 text the texts of the others are
    dropped with it: the result is the empty list, as it is when opening or
    decoding raises. *)
Theorem decode_qr_image_all_or_nothing
    (img_path : list string) (fs : gmap (list string) node) :
  (∀ contents results,
     open_r img_path fs = Return contents →
     qr_decode contents = Return results →
     decode_qr_image qr_decode img_path fs
     = Return (if forallb CPython.utf8_valid results
               then map string_of_list_byte results
               else []))
  ∧ ((∃ e, open_r img_path fs = Raise e)
     ∨ (∃ contents e, open_r img_path fs = Return contents
                      ∧ qr_decode contents = Raise e) →
     decode_qr_image qr_decode img_path fs = Return []).
Proof.
  rewrite decode_qr_image_cases. split.
  - intros contents results -> ->. reflexivity.
  - intros [(e & ->) | (contents & e & -> & ->)]; reflexivity.
Qed.

(** X14: [process_qr_code] never raises.  With img.png present it returns
    the accounts of the decoded texts, concatenated in the order of the
    texts, where a text contributes the account of [parse_otpauth_url], the
    accounts of [parse_migration_url], or nothing (no result, or neither
    prefix); it returns None when that list is empty or img.png is
    missing. *)
Theorem process_qr_code_collects (fs : gmap (list string) node) :
  ∃ urls,
    decode_qr_image qr_decode (IMG_PNG PROJECT_ROOT) fs = Return urls ∧
    process_qr_code PROJECT_ROOT qr_decode fs
    = Return (if path_exists (IMG_PNG PROJECT_ROOT) fs
              then match flat_map url_accounts urls with
                   | [] => None
                   | accounts => Some accounts
                   end
              else None).
Proof. apply process_qr_code_cases. Qed.

(** X15: a list that [process_qr_code] returns is not empty, and each of its
    accounts has a non-empty name, 6, 7 or 8 digits, and one of the
    algorithm names SHA1, SHA256, SHA512 and MD5. *)
Theorem process_qr_code_accounts_ok
    (fs : gmap (list string) node) (accounts : list Account) :
  process_qr_code PROJECT_ROOT qr_decode fs = Return (Some accounts) →
  accounts ≠ []
  ∧ Forall (fun acc =>
              name acc ≠ EmptyString
              ∧ (digits acc = 6 ∨ digits acc = 7 ∨ digits acc = 8)
              ∧ In (algorithm acc) ["SHA1"; "SHA256"; "SHA512"; "MD5"])
      accounts.
Proof.
  destruct (process_qr_code_cases fs) as (urls & _ & ->).
  destruct (path_exists (IMG_PNG PROJECT_ROOT) fs); [|discriminate].
  assert (Forall account_ok (flat_map url_accounts urls)) as Hall.
  { apply Forall_flat_map, Forall_forall. intros url _. apply url_accounts_ok. }
  destruct (flat_map url_accounts urls) as [|acc rest]; [discriminate|].
  intros [= <-]. split; [discriminate | exact Hall].
Qed.

End DispatcherProperties.

(** The second code of the image is not UTF-8 text: the URL of the first
    code is dropped as well. *)
Lemma decode_qr_image_all_or_nothing_witness :
  decode_qr_image qr_decode_bad_text (IMG_PNG example_root) fresh_fs
  = Return [].
Proof.
  apply (proj1 (decode_qr_image_all_or_nothing qr_decode_bad_text
                  (IMG_PNG example_root) fresh_fs)
           "PNG" [list_byte_of_string example_otpauth_url; [xff; xfe]]).
  - vm_compute. reflexivity.
  - reflexivity.
Defined.

(** Three codes: the account of the first, the two accounts of the second,
    nothing for the third. *)
Lemma process_qr_code_three :
  process_qr_code (L := CPython.lib) example_root qr_decode_three fresh_fs
  = Return (Some [{| name := "Example (alice)"; secret := "JBSWY3DPEHPK3PXP";
                     digits := 8; algorithm := "SHA256" |};
                  example_account_1; example_account_2]).
Proof. vm_compute. reflexivity. Qed.

Lemma process_qr_code_accounts_ok_witness :
  [{| name := "Example (alice)"; secret := "JBSWY3DPEHPK3PXP";
      digits := 8; algorithm := "SHA256" |};
   example_account_1; example_account_2] ≠ []
  ∧ Forall (fun acc =>
              name acc ≠ EmptyString
              ∧ (digits acc = 6 ∨ digits acc = 7 ∨ digits acc = 8)
              ∧ In (algorithm acc) ["SHA1"; "SHA256"; "SHA512"; "MD5"])
      [{| name := "Example (alice)"; secret := "JBSWY3DPEHPK3PXP";
          digits := 8; algorithm := "SHA256" |};
       example_account_1; example_account_2].
Proof.
  apply (process_qr_code_accounts_ok (L := CPython.lib) example_root
           qr_decode_three fresh_fs).
  vm_compute. reflexivity.
Defined.

(** * Further properties of the output writer *)

Lemma node_at_cons (c : string) (p : list string) (fs : gmap (list string) node) :
  node_at (c :: p) fs = fs !! (c :: p).
Proof. reflexivity. Qed.

Lemma is_dir_lookup (p : list string) (fs : gmap (list string) node) :
  is_dir p fs = true ↔ p = [] ∨ fs !! p = Some Dir.
Proof.
  unfold is_dir, node_at. destruct p as [|c parent].
  - split; auto.
  - destruct (fs !! (c :: parent)) as [[x|]|]; split; intros Hd;
      try discriminate; auto; destruct Hd as [?|?]; congruence.
Qed.

Lemma is_dir_insert (p q : list string) (n : node) (fs : gmap (list string) node) :
  is_dir q fs = true → fs !! p ≠ Some Dir ∨ n = Dir →
  is_dir q (<[p := n]> fs) = true.
Proof.
  rewrite !is_dir_lookup. intros [->|Hq] Hp; [left; reflexivity|]. right.
  destruct (decide (p = q)) as [->|Hne].
  - rewrite lookup_insert_eq. destruct Hp as [Hp| ->]; congruence.
  - rewrite lookup_insert_ne by exact Hne. exact Hq.
Qed.

(** Adding a directory, or writing a file where no directory is, under a
    directory keeps the file system well formed. *)
Lemma fs_wf_insert (p : list string) (n : node) (fs : gmap (list string) node) :
  fs_wf fs → is_dir (tail p) fs = true → fs !! p ≠ Some Dir ∨ n = Dir →
  fs_wf (<[p := n]> fs).
Proof.
  unfold fs_wf. intros Hwf Hparent Hp.
  apply map_Forall_insert_2.
  - apply is_dir_insert; assumption.
  - intros q m Hq. apply is_dir_insert; [|assumption]. exact (Hwf q m Hq).
Qed.

Ltac same_fs H Hwf := injection H as _ <-; exact Hwf.

Lemma os_mkdir_wf (p : list string) (fs fs' : gmap (list string) node)
    (r : result unit) :
  fs_wf fs → os_mkdir p fs = (r, fs') → fs_wf fs'.
Proof.
  unfold os_mkdir. intros Hwf Hmk.
  destruct p as [|c parent]; [same_fs Hmk Hwf|].
  destruct (node_at parent fs) as [[x|]|] eqn:Hparent; try same_fs Hmk Hwf.
  destruct (fs !! (c :: parent)) eqn:Hp; [same_fs Hmk Hwf|].
  injection Hmk as _ <-. apply fs_wf_insert; auto.
  unfold is_dir. simpl. rewrite Hparent. reflexivity.
Qed.

Lemma mkdir_exist_ok_wf (p : list string) (fs fs' : gmap (list string) node)
    (r : result unit) :
  fs_wf fs → mkdir_exist_ok p fs = (r, fs') → fs_wf fs'.
Proof.
  unfold mkdir_exist_ok. intros Hwf Hmk.
  destruct (os_mkdir p fs) as [[u|e] fs1] eqn:Hos.
  - injection Hmk as _ <-. eapply os_mkdir_wf; eassumption.
  - destruct e; try (destruct (is_dir p fs)); same_fs Hmk Hwf.
Qed.

Lemma mkdir_wf (p : list string) (fs fs' : gmap (list string) node)
    (r : result unit) :
  fs_wf fs → mkdir p fs = (r, fs') → fs_wf fs'.
Proof.
  revert fs fs' r. induction p as [|c parent IH]; intros fs fs' r Hwf Hmk.
  - simpl in Hmk. same_fs Hmk Hwf.
  - simpl in Hmk.
    destruct (node_at parent fs) as [[contents|]|] eqn:Hparent.
    + destruct (is_dir (c :: parent) fs); same_fs Hmk Hwf.
    + destruct (fs !! (c :: parent)) eqn:Hp.
      * destruct (is_dir (c :: parent) fs); same_fs Hmk Hwf.
      * injection Hmk as _ <-. apply fs_wf_insert; auto.
        unfold is_dir. simpl. rewrite Hparent. reflexivity.
    + destruct (mkdir parent fs) as [[u|e] fs1] eqn:Hrec.
      * eapply mkdir_exist_ok_wf; [|eassumption]. eapply IH; eassumption.
      * injection Hmk as _ <-. eapply IH; eassumption.
Qed.

Lemma open_w_wf (p : list string) (contents : string)
    (fs fs' : gmap (list string) node) (r : result unit) :
  fs_wf fs → open_w p contents fs = (r, fs') → fs_wf fs'.
Proof.
  unfold open_w. intros Hwf Hop.
  destruct p as [|c parent]; [same_fs Hop Hwf|].
  destruct (node_at parent fs) as [[x|]|] eqn:Hparent; try same_fs Hop Hwf.
  assert (is_dir (tail (c :: parent)) fs = true) as Hdir
    by (unfold is_dir; simpl; rewrite Hparent; reflexivity).
  destruct (fs !! (c :: parent)) as [[x|]|] eqn:Hp; try same_fs Hop Hwf;
    injection Hop as _ <-; apply fs_wf_insert; auto; left; congruence.
Qed.

Section WriterProperties.
Context {L : PyLib}.
Variable PROJECT_ROOT : list string.

Lemma create_accounts_json_wf (accounts : list Account)
    (fs fs' : gmap (list string) node) (r : result bool) :
  fs_wf fs → create_accounts_json PROJECT_ROOT accounts fs = (r, fs') →
  fs_wf fs'.
Proof.
  unfold create_accounts_json. intros Hwf Hrun.
  destruct accounts as [|acc rest]; [same_fs Hrun Hwf|].
  destruct (mkdir (CSHARP_TRAY_DIR PROJECT_ROOT) fs) as [[u|e] fs1] eqn:Hmk.
  - pose proof (mkdir_wf _ _ _ _ Hwf Hmk) as Hwf1.
    destruct (open_w (csharp_file PROJECT_ROOT fs) _ fs1) as [[u'|e] fs2] eqn:Hop;
      injection Hrun as _ <-; eapply open_w_wf; eassumption.
  - injection Hrun as _ <-. eapply mkdir_wf; eassumption.
Qed.

(** Under an existing project directory, without files in the way, the
    directories of the tray application are created where missing. *)
Lemma mkdir_tray_dir (fs : gmap (list string) node) :
  fs_wf fs →
  is_dir PROJECT_ROOT fs = true →
  (∀ contents, fs !! joinpath PROJECT_ROOT "csharp-tray" ≠ Some (File contents)) →
  (∀ contents, fs !! CSHARP_TRAY_DIR PROJECT_ROOT ≠ Some (File contents)) →
  mkdir (CSHARP_TRAY_DIR PROJECT_ROOT) fs
  = (Return tt, with_tray_dirs PROJECT_ROOT fs).
Proof.
  intros Hwf Hroot Hct Htray.
  unfold with_tray_dirs, CSHARP_TRAY_DIR, joinpath in *.
  assert (node_at PROJECT_ROOT fs = Some Dir) as Hrootnode.
  { unfold is_dir in Hroot. destruct (node_at PROJECT_ROOT fs) as [[x|]|];
      congruence. }
  destruct (fs !! ("AuthenticatorTray" :: "csharp-tray" :: PROJECT_ROOT))
    as [[x|]|] eqn:Htr.
  - exfalso. exact (Htray x eq_refl).
  - assert (fs !! ("csharp-tray" :: PROJECT_ROOT) = Some Dir) as Hctdir.
    { apply (Hwf _ Dir) in Htr. simpl in Htr.
      apply is_dir_lookup in Htr as [Hnil|Hd]; [discriminate | exact Hd]. }
    rewrite (insert_id fs _ Dir Hctdir), (insert_id fs _ Dir Htr).
    apply mkdir_existing_dir; [exact Hwf|].
    apply is_dir_lookup. right. exact Htr.
  - destruct (fs !! ("csharp-tray" :: PROJECT_ROOT)) as [[x|]|] eqn:Hc.
    + exfalso. exact (Hct x eq_refl).
    + rewrite (insert_id fs _ Dir Hc).
      cbn [mkdir os_mkdir]. rewrite node_at_cons, Hc, Htr. reflexivity.
    + cbn [mkdir os_mkdir]. rewrite node_at_cons, Hc, Hrootnode.
      unfold mkdir_exist_ok, os_mkdir.
      rewrite node_at_cons, lookup_insert_eq, lookup_insert_ne, Htr
        by congruence.
      reflexivity.
Qed.

Lemma create_accounts_json_first
    (accounts : list Account) (fs : gmap (list string) node) :
  fs_wf fs →
  is_dir PROJECT_ROOT fs = true →
  (∀ contents, fs !! joinpath PROJECT_ROOT "csharp-tray" ≠ Some (File contents)) →
  (∀ contents, fs !! CSHARP_TRAY_DIR PROJECT_ROOT ≠ Some (File contents)) →
  fs !! CSHARP_ACCOUNTS_JSON PROJECT_ROOT = None →
  accounts ≠ [] →
  create_accounts_json PROJECT_ROOT accounts fs
  = (Return true,
     <[CSHARP_ACCOUNTS_JSON PROJECT_ROOT := File (json_dumps accounts)]>
       (with_tray_dirs PROJECT_ROOT fs)).
Proof.
  intros Hwf Hroot Hct Htray Hfree Haccounts.
  unfold create_accounts_json.
  destruct accounts as [|acc rest]; [congruence|].
  rewrite csharp_accounts_copy, mkdir_tray_dir by assumption.
  assert (csharp_file PROJECT_ROOT fs = CSHARP_ACCOUNTS_JSON PROJECT_ROOT) as ->.
  { unfold csharp_file, path_exists.
    change (node_at (CSHARP_ACCOUNTS_JSON PROJECT_ROOT) fs)
      with (fs !! CSHARP_ACCOUNTS_JSON PROJECT_ROOT).
    rewrite Hfree. reflexivity. }
  unfold open_w, CSHARP_ACCOUNTS_JSON, joinpath.
  unfold CSHARP_ACCOUNTS_JSON, joinpath in Hfree.
  assert (node_at (CSHARP_TRAY_DIR PROJECT_ROOT) (with_tray_dirs PROJECT_ROOT fs)
          = Some Dir) as ->.
  { unfold with_tray_dirs, CSHARP_TRAY_DIR, joinpath.
    rewrite node_at_cons, lookup_insert_eq. reflexivity. }
  assert (with_tray_dirs PROJECT_ROOT fs
            !! ("accounts.json" :: CSHARP_TRAY_DIR PROJECT_ROOT) = None) as ->.
  { unfold with_tray_dirs, CSHARP_TRAY_DIR, joinpath in *.
    rewrite !lookup_insert_ne by congruence. exact Hfree. }
  reflexivity.
Qed.

Lemma create_accounts_json_second
    (accounts : list Account) (fs : gmap (list string) node) :
  fs_wf fs →
  path_exists (CSHARP_ACCOUNTS_JSON PROJECT_ROOT) fs = true →
  fs !! joinpath (CSHARP_TRAY_DIR PROJECT_ROOT) "updated_accounts.json"
  ≠ Some Dir →
  accounts ≠ [] →
  create_accounts_json PROJECT_ROOT accounts fs
  = (Return true,
     <[joinpath (CSHARP_TRAY_DIR PROJECT_ROOT) "updated_accounts.json"
       := File (json_dumps accounts)]> fs).
Proof.
  intros Hwf Hexists Hnotdir Haccounts.
  assert (∃ n, fs !! CSHARP_ACCOUNTS_JSON PROJECT_ROOT = Some n) as (n & Hn).
  { unfold path_exists in Hexists. simpl in Hexists.
    destruct (fs !! CSHARP_ACCOUNTS_JSON PROJECT_ROOT); [eauto | discriminate]. }
  assert (is_dir (CSHARP_TRAY_DIR PROJECT_ROOT) fs = true) as Hdir
    by exact (Hwf _ _ Hn).
  unfold create_accounts_json.
  destruct accounts as [|acc rest]; [congruence|].
  rewrite csharp_accounts_copy, (mkdir_existing_dir _ _ Hwf Hdir).
  rewrite (csharp_file_occupied PROJECT_ROOT fs Hexists).
  unfold open_w, joinpath in *. unfold is_dir in Hdir.
  destruct (node_at (CSHARP_TRAY_DIR PROJECT_ROOT) fs) as [[x|]|];
    try discriminate.
  destruct (fs !! ("updated_accounts.json" :: CSHARP_TRAY_DIR PROJECT_ROOT))
    as [[x|]|]; try congruence; reflexivity.
Qed.

(** X16: in a well-formed file system whose project directory exists, with
    no file in the place of the two directories of the tray application and
    no accounts.json, writing a non-empty list succeeds: the directories
    are created where missing and accounts.json holds the JSON text of the
    list. *)
Theorem create_accounts_json_fresh
    (accounts : list Account) (fs : gmap (list string) node) :
  fs_wf fs →
  is_dir PROJECT_ROOT fs = true →
  (∀ contents, fs !! joinpath PROJECT_ROOT "csharp-tray" ≠ Some (File contents)) →
  (∀ contents, fs !! CSHARP_TRAY_DIR PROJECT_ROOT ≠ Some (File contents)) →
  fs !! CSHARP_ACCOUNTS_JSON PROJECT_ROOT = None →
  accounts ≠ [] →
  create_accounts_json PROJECT_ROOT accounts fs
  = (Return true,
     <[CSHARP_ACCOUNTS_JSON PROJECT_ROOT := File (json_dumps accounts)]>
       (with_tray_dirs PROJECT_ROOT fs)).
Proof. apply create_accounts_json_first. Qed.

(** X17: two writes in a row, starting without accounts.json: the first
    creates accounts.json, the second goes to updated_accounts.json, and
    afterwards accounts.json still holds the list of the first write. *)
Theorem create_accounts_json_twice
    (first second : list Account) (fs : gmap (list string) node) :
  fs_wf fs →
  is_dir PROJECT_ROOT fs = true →
  (∀ contents, fs !! joinpath PROJECT_ROOT "csharp-tray" ≠ Some (File contents)) →
  (∀ contents, fs !! CSHARP_TRAY_DIR PROJECT_ROOT ≠ Some (File contents)) →
  fs !! CSHARP_ACCOUNTS_JSON PROJECT_ROOT = None →
  fs !! joinpath (CSHARP_TRAY_DIR PROJECT_ROOT) "updated_accounts.json"
  ≠ Some Dir →
  first ≠ [] → second ≠ [] →
  ∃ fs1 fs2,
    create_accounts_json PROJECT_ROOT first fs = (Return true, fs1) ∧
    create_accounts_json PROJECT_ROOT second fs1 = (Return true, fs2) ∧
    fs2 !! CSHARP_ACCOUNTS_JSON PROJECT_ROOT
    = Some (File (json_dumps first)) ∧
    fs2 !! joinpath (CSHARP_TRAY_DIR PROJECT_ROOT) "updated_accounts.json"
    = Some (File (json_dumps second)).
Proof.
  intros Hwf Hroot Hct Htray Hfree Hupdated Hfirst Hsecond.
  pose proof (create_accounts_json_first first fs Hwf Hroot Hct Htray Hfree
                Hfirst) as Hrun1.
  eexists _, _. split; [exact Hrun1|].
  pose proof (create_accounts_json_wf _ _ _ _ Hwf Hrun1) as Hwf1.
  rewrite create_accounts_json_second; try assumption.
  - split; [reflexivity|]. split.
    + rewrite lookup_insert_ne, lookup_insert_eq; [reflexivity|].
      unfold CSHARP_ACCOUNTS_JSON, joinpath. congruence.
    + apply lookup_insert_eq.
  - unfold path_exists.
    change (node_at (CSHARP_ACCOUNTS_JSON PROJECT_ROOT) ?m)
      with (m !! CSHARP_ACCOUNTS_JSON PROJECT_ROOT).
    rewrite lookup_insert_eq. reflexivity.
  - unfold with_tray_dirs, CSHARP_ACCOUNTS_JSON, CSHARP_TRAY_DIR, joinpath in *.
    rewrite !lookup_insert_ne by congruence. exact Hupdated.
Qed.

(** X18: in every state, [create_accounts_json] changes at most one path
    that exists, the file it chose.  It returns False exactly for the empty
    list, and then changes nothing; when it returns True the chosen file
    holds the JSON text of the list. *)
Theorem create_accounts_json_one_path
    (accounts : list Account) (fs fs' : gmap (list string) node)
    (r : result bool) :
  create_accounts_json PROJECT_ROOT accounts fs = (r, fs') →
  (∀ p n, p ≠ csharp_file PROJECT_ROOT fs →
          fs !! p = Some n → fs' !! p = Some n)
  ∧ (r = Return false ↔ accounts = [])
  ∧ (accounts = [] → fs' = fs)
  ∧ (r = Return true →
     fs' !! csharp_file PROJECT_ROOT fs = Some (File (json_dumps accounts))).
Proof.
  intros Hrun. split; [|split; [|split]].
  - intros p n Hp Hn. eapply create_accounts_json_frame; eassumption.
  - unfold create_accounts_json in Hrun.
    destruct accounts as [|acc rest].
    + injection Hrun as <- _. split; reflexivity.
    + split; [|discriminate]. intros ->.
      destruct (mkdir (CSHARP_TRAY_DIR PROJECT_ROOT) fs) as [[u|e] fs1];
        [|discriminate].
      destruct (open_w (csharp_file PROJECT_ROOT fs) _ fs1) as [[u'|e] fs2];
        discriminate.
  - intros ->. unfold create_accounts_json in Hrun. congruence.
  - intros ->. unfold create_accounts_json in Hrun.
    destruct accounts as [|acc rest]; [discriminate|].
    rewrite csharp_accounts_copy in Hrun.
    destruct (mkdir (CSHARP_TRAY_DIR PROJECT_ROOT) fs) as [[u|e] fs1];
      [|discriminate].
    destruct (open_w (csharp_file PROJECT_ROOT fs) _ fs1) as [[u'|e] fs2] eqn:Hop;
      [|discriminate].
    injection Hrun as <-. unfold open_w in Hop.
    destruct (csharp_file PROJECT_ROOT fs) as [|c parent]; [discriminate|].
    destruct (node_at parent fs1) as [[x|]|]; try discriminate.
    destruct (fs1 !! (c :: parent)) as [[x|]|]; try discriminate;
      injection Hop as _ Hfs; rewrite <- Hfs; apply lookup_insert_eq.
Qed.

(** X19: [create_accounts_json] keeps the file system well formed: after
    it, too, the parent of every path that exists is a directory, whether
    the call returns or raises. *)
Theorem create_accounts_json_keeps_wf
    (accounts : list Account) (fs fs' : gmap (list string) node)
    (r : result bool) :
  fs_wf fs → create_accounts_json PROJECT_ROOT accounts fs = (r, fs') →
  fs_wf fs'.
Proof. apply create_accounts_json_wf. Qed.

End WriterProperties.

Lemma fresh_fs_wf : fs_wf fresh_fs.
Proof. unfold fs_wf. apply (bool_decide_unpack _). vm_compute. reflexivity. Qed.

Lemma create_accounts_json_fresh_witness :
  create_accounts_json (L := CPython.lib) example_root [example_account_1]
    fresh_fs
  = (Return true,
     <[CSHARP_ACCOUNTS_JSON example_root
       := File (CPython.json_dumps [example_account_1])]>
       (with_tray_dirs example_root fresh_fs)).
Proof.
  apply (create_accounts_json_fresh (L := CPython.lib) example_root
           [example_account_1] fresh_fs).
  - exact fresh_fs_wf.
  - vm_compute. reflexivity.
  - intros contents. vm_compute. discriminate.
  - intros contents. vm_compute. discriminate.
  - vm_compute. reflexivity.
  - discriminate.
Defined.

Lemma create_accounts_json_twice_witness :
  ∃ fs1 fs2,
    create_accounts_json (L := CPython.lib) example_root [example_account_1]
      fresh_fs = (Return true, fs1) ∧
    create_accounts_json (L := CPython.lib) example_root [example_account_2]
      fs1 = (Return true, fs2) ∧
    fs2 !! CSHARP_ACCOUNTS_JSON example_root
    = Some (File (CPython.json_dumps [example_account_1])) ∧
    fs2 !! example_updated
    = Some (File (CPython.json_dumps [example_account_2])).
Proof.
  apply (create_accounts_json_twice (L := CPython.lib) example_root
           [example_account_1] [example_account_2] fresh_fs).
  - exact fresh_fs_wf.
  - vm_compute. reflexivity.
  - intros contents. vm_compute. discriminate.
  - intros contents. vm_compute. discriminate.
  - vm_compute. reflexivity.
  - vm_compute. discriminate.
  - discriminate.
  - discriminate.
Defined.

(** The image next to which the writer works is left as it is. *)
Lemma create_accounts_json_one_path_witness :
  (<[CSHARP_ACCOUNTS_JSON example_root
     := File (CPython.json_dumps [example_account_1])]>
     (with_tray_dirs example_root fresh_fs)) !! IMG_PNG example_root
  = Some (File "PNG").
Proof.
  apply (proj1 (create_accounts_json_one_path (L := CPython.lib) example_root
                  [example_account_1] fresh_fs _ (Return true) eq_refl)).
  - vm_compute. discriminate.
  - vm_compute. reflexivity.
Defined.

Lemma create_accounts_json_keeps_wf_witness :
  fs_wf (<[CSHARP_ACCOUNTS_JSON example_root
           := File (CPython.json_dumps [example_account_1])]>
           (with_tray_dirs example_root fresh_fs)).
Proof.
  apply (create_accounts_json_keeps_wf (L := CPython.lib) example_root
           [example_account_1] fresh_fs _ (Return true) fresh_fs_wf).
  vm_compute. reflexivity.
Defined.

(** * The check of accounts.json *)

Section CheckProperties.
Variable PROJECT_ROOT : list string.
Variable json_load : string → load_outcome.

Lemma open_r_exists (p : list string) (fs : gmap (list string) node)
    (contents : string) :
  open_r p fs = Return contents → path_exists p fs = true.
Proof.
  unfold open_r, path_exists. destruct (node_at p fs) as [[x|]|];
    [reflexivity | discriminate | discriminate].
Qed.

(** X20: [check_accounts_json] accepts every file that holds JSON, whatever
    the value is: an array, a number or an object without "accounts" pass
    like a list of accounts.  The one condition is that an "accounts" member,
    if there is one, has a length. *)
Theorem check_accounts_json_any_json
    (fs : gmap (list string) node) (contents : string) (data : json) :
  open_r (CSHARP_ACCOUNTS_JSON PROJECT_ROOT) fs = Return contents →
  json_load contents = Loaded data →
  (∀ members accounts,
     data = JObject members → member "accounts" members = Some accounts →
     json_len accounts ≠ None) →
  check_accounts_json PROJECT_ROOT json_load fs = Checked true.
Proof.
  intros Hopen Hload Hlen. unfold check_accounts_json.
  rewrite (open_r_exists _ _ _ Hopen), Hopen, Hload.
  destruct data as [| | | |items|members]; try reflexivity.
  destruct (member "accounts" members) as [accounts|] eqn:Hmember;
    [|reflexivity].
  specialize (Hlen members accounts eq_refl Hmember).
  destruct (json_len accounts); [reflexivity | congruence].
Qed.

(** X21: when accounts.json holds an object whose "accounts" member is a
    number, a truth value or null, [check_accounts_json] does not return:
    [len] raises [TypeError], which the function does not catch. *)
Theorem check_accounts_json_type_error
    (fs : gmap (list string) node) (contents : string)
    (members : list (string * json)) (accounts : json) :
  open_r (CSHARP_ACCOUNTS_JSON PROJECT_ROOT) fs = Return contents →
  json_load contents = Loaded (JObject members) →
  member "accounts" members = Some accounts →
  accounts = JNull ∨ (∃ b, accounts = JBool b) ∨ accounts = JNumber →
  check_accounts_json PROJECT_ROOT json_load fs = TypeError.
Proof.
  intros Hopen Hload Hmember Hkind. unfold check_accounts_json.
  rewrite (open_r_exists _ _ _ Hopen), Hopen, Hload, Hmember.
  destruct Hkind as [-> | [(b & ->) | ->]]; reflexivity.
Qed.

(** X22: [check_accounts_json] returns False in two cases only: accounts.json
    does not exist, or it is a file whose contents [json.load] rejects with
    [JSONDecodeError]. *)
Theorem check_accounts_json_false_iff (fs : gmap (list string) node) :
  check_accounts_json PROJECT_ROOT json_load fs = Checked false ↔
  path_exists (CSHARP_ACCOUNTS_JSON PROJECT_ROOT) fs = false
  ∨ ∃ contents,
      open_r (CSHARP_ACCOUNTS_JSON PROJECT_ROOT) fs = Return contents
      ∧ json_load contents = JSONDecodeError.
Proof.
  unfold check_accounts_json.
  destruct (path_exists (CSHARP_ACCOUNTS_JSON PROJECT_ROOT) fs).
  - destruct (open_r (CSHARP_ACCOUNTS_JSON PROJECT_ROOT) fs) as [contents|e].
    + destruct (json_load contents) as [data| |e] eqn:Hload.
      * split.
        -- destruct data as [| | | |items|members]; try discriminate.
           destruct (member "accounts" members) as [accounts|];
             [|discriminate].
           destruct (json_len accounts); discriminate.
        -- intros [Hno | (c & [= <-] & Hc)]; congruence.
      * split; [|reflexivity]. intros _. right. eauto.
      * split; [discriminate|].
        intros [Hno | (c & [= <-] & Hc)]; congruence.
    + split; [discriminate|].
      intros [Hno | (c & Hc & _)]; discriminate.
  - split; [auto | reflexivity].
Qed.

End CheckProperties.

(** A file that holds the JSON array "[]" passes the check. *)
Lemma check_accounts_json_any_json_witness :
  check_accounts_json example_root json_load_sample (example_fs_with "[]")
  = Checked true.
Proof.
  apply (check_accounts_json_any_json example_root json_load_sample
           (example_fs_with "[]") "[]" (JArray [])).
  - vm_compute. reflexivity.
  - reflexivity.
  - intros members accounts Hdata. discriminate.
Defined.

Lemma check_accounts_json_type_error_witness :
  check_accounts_json example_root json_load_sample
    (example_fs_with accounts_is_5)
  = TypeError.
Proof.
  apply (check_accounts_json_type_error example_root json_load_sample
           (example_fs_with accounts_is_5) accounts_is_5
           [("accounts", JNumber)] JNumber).
  - vm_compute. reflexivity.
  - vm_compute. reflexivity.
  - reflexivity.
  - right. right. reflexivity.
Defined.

(** Without accounts.json the check returns False. *)
Lemma check_accounts_json_false_iff_witness :
  check_accounts_json example_root json_load_sample fresh_fs = Checked false.
Proof.
  apply (proj2 (check_accounts_json_false_iff example_root json_load_sample
                  fresh_fs)).
  left. vm_compute. reflexivity.
Defined.
